(** * iolite_client.entity_factory: the entity classifier

    A shallow embedding of [src/iolite_client/entity_factory.py] and the
    properties of its factories: [create_room], [create_device],
    [create_heating] and the helpers [_get_prop_optional], [_get_prop] and
    [_create_device]. *)

From Stdlib Require Import ZArith String Ascii List Bool.
From Stdlib Require Import Floats.SpecFloat.
From stdpp Require Import gmap strings list fin_maps.

Set Warnings "-register-all".
Local Open Scope string_scope.
Local Open Scope list_scope.

(** ** Python values

    The payloads are what [json.loads] hands over: [None], booleans,
    integers, floats, strings, lists and dictionaries with string keys.
    A Python [str] is kept as the string of its UTF-8 bytes; the code only
    compares strings with ASCII literals, tests them for emptiness and
    tests one ASCII prefix, and all three agree on the two views. *)

Inductive value : Type :=
| VNone
| VBool (b : bool)
| VInt (n : Z)
| VFloat (f : spec_float)
| VStr (s : string)
| VList (l : list value)
| VDict (d : gmap string value).

Abbreviation dict := (gmap string value).

(** [bool(v)], the test behind [if not v]. *)
Definition truthy (v : value) : bool :=
  match v with
  | VNone => false
  | VBool b => b
  | VInt n => negb (n =? 0)%Z
  | VFloat (S754_zero _) => false
  | VFloat _ => true
  | VStr EmptyString => false
  | VStr _ => true
  | VList [] => false
  | VList _ => true
  | VDict d => match map_to_list d with [] => false | _ => true end
  end.

(** [v == "literal"]: only a [str] with the same characters is equal to a
    string literal. *)
Definition eq_str (v : value) (s : string) : bool :=
  match v with
  | VStr t => String.eqb t s
  | _ => false
  end.

(** [d.get(k)]: [None] when the key is absent. *)
Definition get (d : dict) (k : string) : value := default VNone (d !! k).

(** [k in d]. *)
Definition contains (d : dict) (k : string) : bool :=
  match d !! k with Some _ => true | None => false end.

(** ** Exceptions

    An f-string is kept as its template together with the values it
    interpolates; each constructor of [text] below is one string expression
    of the source. *)

Inductive text : Type :=
| Literal (s : string)
    (* "Payload missing class", "Payload missing id" *)
| UnsupportedRoomClass (entity_class : value)
    (* f"An unsupported entity class was provided when trying to create a room - {entity_class}" *)
| UnsupportedDeviceClass (entity_class : value)
    (* f"An unsupported entity class was provided when trying to create a device - {entity_class}" *)
| FailedToFind (key : string) (available : list value)
    (* f"Failed to find {key} in property set. Available: {available}" *)
| UnrecognizedHeater (available : list value)
    (* f"Heater with unrecognized property set {available}" *)
| Plain (v : value).
    (* a value passed as it is: the type_name given to UnsupportedDeviceError *)

(** The exceptions the module can raise. [ValueError], [NotImplementedError],
    [KeyError], [AttributeError] and [TypeError] are Python's own, the last
    three raised by the interpreter ([d[k]] on an absent key, a method looked
    up on a value that has none, iteration over a value that is not
    iterable).

    Modelled from the spec: [UnsupportedDeviceError] is declared in
    [iolite_client/exceptions.py]; it is kept as the three arguments the
    factory passes to it (message or type name, identifier, raw payload). *)
Inductive exn : Type :=
| ValueError (msg : text)
| NotImplementedError (msg : text)
| KeyError (key : string)
| UnsupportedDeviceError (arg : text) (identifier : value) (payload : dict)
| AttributeError (attr : string)
| TypeError.

Inductive result (A : Type) : Type :=
| Ok (a : A)
| Raise (e : exn).
Arguments Ok {A} a.
Arguments Raise {A} e.

Definition bind {A B : Type} (c : result A) (k : A -> result B) : result B :=
  match c with
  | Ok a => k a
  | Raise e => Raise e
  end.

Notation "'let*' x ':=' c 'in' k" := (bind c (fun x => k))
  (at level 10, x name, c at level 100, k at level 200).

(** [d[k]]. *)
Definition subscript (d : dict) (k : string) : result value :=
  match d !! k with
  | Some v => Ok v
  | None => Raise (KeyError k)
  end.

(** [iter(v)], what a generator expression or a comprehension over [v] walks
    through: the items of a list, the characters of a string, the keys of a
    dictionary; anything else is not iterable. *)
Definition py_iter (v : value) : result (list value) :=
  match v with
  | VList l => Ok l
  | VStr s => Ok ((fun c => VStr (String c EmptyString)) <$> list_ascii_of_string s)
  | VDict d => Ok ((fun kv => VStr (fst kv)) <$> map_to_list d)
  | _ => Raise TypeError
  end.

(** [p.get("name")] for an item [p] of the property list: only a dictionary
    has a [get]. *)
Definition name_of (p : value) : result value :=
  match p with
  | VDict d => Ok (get d "name")
  | _ => Raise (AttributeError "get")
  end.

(** ** Entities

    Modelled from the spec: the entity classes live in
    [iolite_client/entity.py]; each is kept as its constructor applied to the
    arguments the factory passes, in the order it passes them. *)

Record Room : Type := mkRoom {
  room_identifier : value;
  room_name : value }.

Inductive Device : Type :=
| Lamp (identifier friendly place_identifier manufacturer : value)
| Switch (identifier friendly place_identifier manufacturer : value)
| Blind (identifier friendly place_identifier manufacturer blind_level : value)
| HumiditySensor (identifier friendly place_identifier manufacturer
                  current_env_temp humidity_level : value)
| RadiatorValve (identifier friendly place_identifier manufacturer
                 current_env_temp battery_level heating_mode valve_position : value)
| InFloorValve (identifier friendly place_identifier manufacturer
                current_env_temp heating_temperature_setting device_status : value).

Record Heating : Type := mkHeating {
  heating_identifier : value;
  heating_name : value;
  heating_current_temperature : value;
  heating_target_temperature : value;
  heating_window_open : value }.

(** ** The factories *)

Definition create_room (payload : dict) : result Room :=
  let entity_class := get payload "class" in
  let identifier := get payload "id" in
  if negb (truthy entity_class) then Raise (ValueError (Literal "Payload missing class"))
  else if negb (truthy identifier) then Raise (ValueError (Literal "Payload missing id"))
  else if negb (eq_str entity_class "Room")
       then Raise (NotImplementedError (UnsupportedRoomClass entity_class))
  else
    let* place_name := subscript payload "placeName" in
    Ok (mkRoom identifier place_name).

Definition create_heating (payload : dict) : result Heating :=
  let* id := subscript payload "id" in
  let* name := subscript payload "name" in
  let current_temperature := get payload "currentTemperature" in
  let* target_temperature := subscript payload "targetTemperature" in
  let window_open := get payload "windowOpen" in
  Ok (mkHeating id name current_temperature target_temperature window_open).

(** [next((p for p in properties if p.get("name") == key), None)]: the items
    are visited in order and the walk stops at the first one that matches. *)
Fixpoint next_named (items : list value) (key : string) : result (option dict) :=
  match items with
  | [] => Ok None
  | VDict d :: rest =>
      if eq_str (get d "name") key then Ok (Some d) else next_named rest key
  | _ :: _ => Raise (AttributeError "get")
  end.

Definition _get_prop_optional (properties : value) (key : string) (default : value)
  : result value :=
  let* items := py_iter properties in
  let* found := next_named items key in
  match found with
  | Some d => if truthy (VDict d) && contains d "value"
              then Ok (get d "value") else Ok default
  | None => Ok default
  end.

(** [[p.get("name") for p in properties]]. *)
Fixpoint names_of (items : list value) : result (list value) :=
  match items with
  | [] => Ok []
  | p :: rest =>
      let* n := name_of p in
      let* ns := names_of rest in
      Ok (n :: ns)
  end.

Definition available_names (properties : value) : result (list value) :=
  let* items := py_iter properties in names_of items.

Definition _get_prop (properties : value) (key : string) : result value :=
  let* val := _get_prop_optional properties key VNone in
  match val with
  | VNone =>
      let* available := available_names properties in
      Raise (ValueError (FailedToFind key available))
  | _ => Ok val
  end.

(** [any(test(p.get("name")) for p in properties)]: stops at the first item
    that passes. *)
Fixpoint any_name (test : value -> bool) (items : list value) : result bool :=
  match items with
  | [] => Ok false
  | p :: rest =>
      let* n := name_of p in
      if test n then Ok true else any_name test rest
  end.

Definition any_named (test : value -> bool) (properties : value) : result bool :=
  let* items := py_iter properties in any_name test items.

(** [n in ("batteryLevel", "valvePosition", "heatingMode")]. *)
Definition radiator_name (n : value) : bool :=
  eq_str n "batteryLevel" || eq_str n "valvePosition" || eq_str n "heatingMode".

(** [model_name is not None and model_name.startswith("38de6001c3ad")]. *)
Definition model_matches (model_name : value) : result bool :=
  match model_name with
  | VNone => Ok false
  | VStr s => Ok (String.prefix "38de6001c3ad" s)
  | _ => Raise (AttributeError "startswith")
  end.

Definition _create_device (identifier type_name : value) (payload : dict)
  : result Device :=
  let* place_identifier := subscript payload "placeIdentifier" in
  let model_name := get payload "modelName" in
  let manufacturer := get payload "manufacturer" in
  let* friendly := subscript payload "friendlyName" in
  if eq_str type_name "Lamp" then
    Ok (Lamp identifier friendly place_identifier manufacturer)
  else if eq_str type_name "TwoChannelRockerSwitch" then
    Ok (Switch identifier friendly place_identifier manufacturer)
  else if eq_str type_name "Heater" then
    let* properties := subscript payload "properties" in
    let* current_env_temp :=
      _get_prop_optional properties "currentEnvironmentTemperature" VNone in
    let* special := model_matches model_name in
    if special then
      let* heating_temperature_setting :=
        _get_prop properties "heatingTemperatureSetting" in
      let* device_status :=
        _get_prop_optional properties "deviceStatus" (VStr "UNKNOWN") in
      Ok (InFloorValve identifier friendly place_identifier manufacturer
            current_env_temp heating_temperature_setting device_status)
    else
      let* has_knx_setpoint :=
        any_named (fun n => eq_str n "heatingTemperatureSetting") properties in
      let* has_radiator_props := any_named radiator_name properties in
      if has_radiator_props then
        let* battery_level := _get_prop_optional properties "batteryLevel" VNone in
        let* heating_mode := _get_prop_optional properties "heatingMode" VNone in
        let* valve_position := _get_prop_optional properties "valvePosition" VNone in
        Ok (RadiatorValve identifier friendly place_identifier manufacturer
              current_env_temp battery_level heating_mode valve_position)
      else if has_knx_setpoint then
        let* heating_temperature_setting :=
          _get_prop properties "heatingTemperatureSetting" in
        let* device_status :=
          _get_prop_optional properties "deviceStatus" (VStr "UNKNOWN") in
        Ok (InFloorValve identifier friendly place_identifier manufacturer
              current_env_temp heating_temperature_setting device_status)
      else
        let* available := available_names properties in
        Raise (UnsupportedDeviceError (UnrecognizedHeater available) identifier payload)
  else if eq_str type_name "Blind" then
    let* properties := subscript payload "properties" in
    let* blind_level := _get_prop properties "blindLevel" in
    Ok (Blind identifier friendly place_identifier manufacturer blind_level)
  else if eq_str type_name "HumiditySensor" then
    let* properties := subscript payload "properties" in
    let* current_env_temp :=
      _get_prop_optional properties "currentEnvironmentTemperature" VNone in
    let* humidity_level := _get_prop properties "humidityLevel" in
    Ok (HumiditySensor identifier friendly place_identifier manufacturer
          current_env_temp humidity_level)
  else
    Raise (UnsupportedDeviceError (Plain type_name) identifier payload).

Definition create_device (payload : dict) : result Device :=
  let entity_class := get payload "class" in
  let identifier := get payload "id" in
  if negb (truthy entity_class) then Raise (ValueError (Literal "Payload missing class"))
  else if negb (truthy identifier) then Raise (ValueError (Literal "Payload missing id"))
  else if negb (eq_str entity_class "Device")
       then Raise (NotImplementedError (UnsupportedDeviceClass entity_class))
  else
    let* type_name := subscript payload "typeName" in
    _create_device identifier type_name payload.

(** ** Vocabulary of the statements *)

(** A property list whose items are all dictionaries, as the hub sends it. *)
Definition props (l : list dict) : value := VList (VDict <$> l).

(** The entry carries exactly this name. *)
Definition named (key : string) (e : dict) : Prop := e !! "name" = Some (VStr key).

Definition is_named (key : string) (e : dict) : bool := eq_str (get e "name") key.

(** The names of the entries, [None] for an entry without one. *)
Definition names (l : list dict) : list value := (fun e => get e "name") <$> l.

(** The spec's [lookup_optional], in its words: the value of the first
    property whose name equals the key; the default if none is found or the
    found entry has no value. *)
Definition lookup_optional (l : list dict) (key : string) (dflt : value) : value :=
  match List.find (is_named key) l with
  | Some e => default dflt (e !! "value")
  | None => dflt
  end.

(** The two InFloorValve branches of the Heater case take the same steps on
    a list of dictionaries: the required setpoint, then the entity. *)
Definition in_floor_valve_steps (payload : dict) (ident friendly place : value)
    (l : list dict) : result Device :=
  let* setting := _get_prop (props l) "heatingTemperatureSetting" in
  Ok (InFloorValve ident friendly place (get payload "manufacturer")
        (lookup_optional l "currentEnvironmentTemperature" VNone)
        setting
        (lookup_optional l "deviceStatus" (VStr "UNKNOWN"))).

(** An item that the scan for [key] passes over: a dictionary whose name is
    not [key]. *)
Definition passed_over (key : string) (p : value) : Prop :=
  exists d, p = VDict d /\ ~ named key d.

(** [e] is the first entry of [items] named [key], everything before it
    being a dictionary with another name. *)
Definition first_item (key : string) (items : list value) (e : dict) : Prop :=
  exists before after,
    items = before ++ VDict e :: after /\ Forall (passed_over key) before /\ named key e.

(** What the optional lookup returns once the scan has settled. *)
Definition value_or (dflt : value) (found : option dict) : value :=
  match found with
  | Some e => default dflt (e !! "value")
  | None => dflt
  end.

(** [e] is the first entry of [l] named [key]. *)
Definition first_named (key : string) (l : list dict) (e : dict) : Prop :=
  exists l1 l2, l = l1 ++ e :: l2 /\ Forall (fun x => ~ named key x) l1 /\ named key e.

(** One of the three radiator names is carried by the entry. *)
Definition radiator_entry (e : dict) : Prop :=
  named "batteryLevel" e \/ named "valvePosition" e \/ named "heatingMode" e.

(** The list without its entries named [key]. *)
Definition without (key : string) (l : list dict) : list dict :=
  List.filter (fun e => negb (is_named key e)) l.

(** The field is absent or empty: [payload.get(k)] is what Python takes as
    false ([None] for an absent key, the empty string, ...). *)
Definition missing (payload : dict) (k : string) : Prop :=
  truthy (get payload k) = false.

Definition device_identifier (d : Device) : value :=
  match d with
  | Lamp i _ _ _ | Switch i _ _ _ | Blind i _ _ _ _ | HumiditySensor i _ _ _ _ _
  | RadiatorValve i _ _ _ _ _ _ _ | InFloorValve i _ _ _ _ _ _ => i
  end.

Definition device_friendly_name (d : Device) : value :=
  match d with
  | Lamp _ f _ _ | Switch _ f _ _ | Blind _ f _ _ _ | HumiditySensor _ f _ _ _ _
  | RadiatorValve _ f _ _ _ _ _ _ | InFloorValve _ f _ _ _ _ _ => f
  end.

Definition device_place_identifier (d : Device) : value :=
  match d with
  | Lamp _ _ p _ | Switch _ _ p _ | Blind _ _ p _ _ | HumiditySensor _ _ p _ _ _
  | RadiatorValve _ _ p _ _ _ _ _ | InFloorValve _ _ p _ _ _ _ => p
  end.

Definition device_manufacturer (d : Device) : value :=
  match d with
  | Lamp _ _ _ m | Switch _ _ _ m | Blind _ _ _ m _ | HumiditySensor _ _ _ m _ _
  | RadiatorValve _ _ _ m _ _ _ _ | InFloorValve _ _ _ m _ _ _ => m
  end.

(** [v] is, as it stands, the value of the first entry named [key] in the
    payload's property list. *)
Definition carried (payload : dict) (key : string) (v : value) : Prop :=
  exists items e,
    payload !! "properties" = Some (VList items) /\
    first_item key items e /\ e !! "value" = Some v.

(** The same for an optional property: [v] is the carried value, or it is
    the default and the list has no entry named [key], or its first such
    entry has no value. *)
Definition carried_or (payload : dict) (key : string) (dflt v : value) : Prop :=
  carried payload key v \/
  (v = dflt /\
   exists items, payload !! "properties" = Some (VList items) /\
     (Forall (passed_over key) items \/
      exists e, first_item key items e /\ e !! "value" = None)).

(** The Python class of an exception, what an [except] clause selects on. *)
Inductive exn_class : Type :=
| ValueErrorClass
| NotImplementedErrorClass
| KeyErrorClass
| UnsupportedDeviceErrorClass
| AttributeErrorClass
| TypeErrorClass.

Definition class_of (e : exn) : exn_class :=
  match e with
  | ValueError _ => ValueErrorClass
  | NotImplementedError _ => NotImplementedErrorClass
  | KeyError _ => KeyErrorClass
  | UnsupportedDeviceError _ _ _ => UnsupportedDeviceErrorClass
  | AttributeError _ => AttributeErrorClass
  | TypeError => TypeErrorClass
  end.

(** The four error kinds of the spec, each with the [raise] of the source it
    stands for. *)
Inductive error_kind : Type :=
| MissingFieldError        (* raise ValueError("Payload missing ...") *)
| UnsupportedClassError    (* raise NotImplementedError(...) *)
| PropertyNotFoundError    (* raise ValueError(f"Failed to find ...") *)
| UnsupportedDeviceKind.   (* raise UnsupportedDeviceError(...) *)

Definition kind_of (e : exn) : option error_kind :=
  match e with
  | ValueError (Literal _) => Some MissingFieldError
  | ValueError (FailedToFind _ _) => Some PropertyNotFoundError
  | ValueError _ => None
  | NotImplementedError _ => Some UnsupportedClassError
  | UnsupportedDeviceError _ _ _ => Some UnsupportedDeviceKind
  | KeyError _ | AttributeError _ | TypeError => None
  end.

(** The payload has the types the hub sends: the model name, when there is
    one, is a string, and the properties, when there are some, are a list of
    dictionaries. *)
Definition well_typed (payload : dict) : Prop :=
  (get payload "modelName" = VNone \/ exists s, get payload "modelName" = VStr s) /\
  (forall v, payload !! "properties" = Some v -> exists l, v = props l).

(** The required lookup has nothing to return: no entry of that name, or a
    first one without value or with a null one. *)
Definition no_usable_value (key : string) (l : list dict) : Prop :=
  Forall (fun e => ~ named key e) l \/
  exists e, first_named key l e /\ (e !! "value" = None \/ e !! "value" = Some VNone).

(** The field a variant cannot do without: the level of a Blind, the
    humidity of a HumiditySensor, the setpoint of an InFloorValve. *)
Definition required_field (d : Device) : option value :=
  match d with
  | Blind _ _ _ _ level => Some level
  | HumiditySensor _ _ _ _ _ humidity => Some humidity
  | InFloorValve _ _ _ _ _ setting _ => Some setting
  | Lamp _ _ _ _ | Switch _ _ _ _ | RadiatorValve _ _ _ _ _ _ _ _ => None
  end.

(** A value Python cannot iterate over: null, a boolean, a number. *)
Definition not_iterable (v : value) : Prop :=
  v = VNone \/ (exists b, v = VBool b) \/ (exists n, v = VInt n) \/ (exists f, v = VFloat f).

(** An item of a property list that has no [get]: anything but a
    dictionary. *)
Definition not_a_dict (p : value) : Prop := forall d, p <> VDict d.

(** The device factory has accepted the head of the payload: the class is
    ["Device"] and the id is not absent or empty. *)
Definition accepted (payload : dict) : Prop :=
  payload !! "class" = Some (VStr "Device") /\ ~ missing payload "id".

(** The payload has reached the chain of tests on its type name: the head is
    accepted, and [typeName], [placeIdentifier] and [friendlyName] are
    there. *)
Definition resolved (payload : dict) (type_name : value) : Prop :=
  accepted payload /\ payload !! "typeName" = Some type_name /\
  is_Some (payload !! "placeIdentifier") /\ is_Some (payload !! "friendlyName").

(** The type names whose branch reads [properties]. *)
Definition reads_properties (type_name : value) : Prop :=
  type_name = VStr "Heater" \/ type_name = VStr "Blind" \/
  type_name = VStr "HumiditySensor".

(** The Heater branch asks for the setpoint: the model name has the prefix,
    or it has not, no entry has a radiator name and one is named
    [heatingTemperatureSetting]. *)
Definition setpoint_consulted (payload : dict) (l : list dict) : Prop :=
  model_matches (get payload "modelName") = Ok true \/
  (model_matches (get payload "modelName") = Ok false /\
   Forall (fun e => ~ radiator_entry e) l /\
   Exists (named "heatingTemperatureSetting") l).

(** The failures of [create_device], each with its cause. *)
Inductive device_failure (payload : dict) : exn -> Prop :=
| missing_class :
    missing payload "class" ->
    device_failure payload (ValueError (Literal "Payload missing class"))
| missing_id :
    ~ missing payload "class" -> missing payload "id" ->
    device_failure payload (ValueError (Literal "Payload missing id"))
| unsupported_class :
    ~ missing payload "class" -> ~ missing payload "id" ->
    get payload "class" <> VStr "Device" ->
    device_failure payload
      (NotImplementedError (UnsupportedDeviceClass (get payload "class")))
| absent_type_name :
    accepted payload -> payload !! "typeName" = None ->
    device_failure payload (KeyError "typeName")
| absent_place_identifier :
    accepted payload -> is_Some (payload !! "typeName") ->
    payload !! "placeIdentifier" = None ->
    device_failure payload (KeyError "placeIdentifier")
| absent_friendly_name :
    accepted payload -> is_Some (payload !! "typeName") ->
    is_Some (payload !! "placeIdentifier") ->
    payload !! "friendlyName" = None ->
    device_failure payload (KeyError "friendlyName")
| absent_properties type_name :
    resolved payload type_name -> reads_properties type_name ->
    payload !! "properties" = None ->
    device_failure payload (KeyError "properties")
| blind_level_not_found l :
    resolved payload (VStr "Blind") ->
    payload !! "properties" = Some (props l) ->
    no_usable_value "blindLevel" l ->
    device_failure payload (ValueError (FailedToFind "blindLevel" (names l)))
| humidity_level_not_found l :
    resolved payload (VStr "HumiditySensor") ->
    payload !! "properties" = Some (props l) ->
    no_usable_value "humidityLevel" l ->
    device_failure payload (ValueError (FailedToFind "humidityLevel" (names l)))
| setpoint_not_found l :
    resolved payload (VStr "Heater") ->
    payload !! "properties" = Some (props l) ->
    setpoint_consulted payload l ->
    no_usable_value "heatingTemperatureSetting" l ->
    device_failure payload
      (ValueError (FailedToFind "heatingTemperatureSetting" (names l)))
| unrecognized_heater l :
    resolved payload (VStr "Heater") ->
    payload !! "properties" = Some (props l) ->
    model_matches (get payload "modelName") = Ok false ->
    Forall (fun e => ~ radiator_entry e /\ ~ named "heatingTemperatureSetting" e) l ->
    device_failure payload
      (UnsupportedDeviceError (UnrecognizedHeater (names l)) (get payload "id") payload)
| unsupported_type type_name :
    resolved payload type_name ->
    (forall s, s ∈ ["Lamp"; "TwoChannelRockerSwitch"; "Heater"; "Blind"; "HumiditySensor"] ->
               type_name <> VStr s) ->
    device_failure payload
      (UnsupportedDeviceError (Plain type_name) (get payload "id") payload).

(** The failures of [create_room], each with its cause. *)
Inductive room_failure (payload : dict) : exn -> Prop :=
| room_missing_class :
    missing payload "class" ->
    room_failure payload (ValueError (Literal "Payload missing class"))
| room_missing_id :
    ~ missing payload "class" -> missing payload "id" ->
    room_failure payload (ValueError (Literal "Payload missing id"))
| room_unsupported_class :
    ~ missing payload "class" -> ~ missing payload "id" ->
    get payload "class" <> VStr "Room" ->
    room_failure payload
      (NotImplementedError (UnsupportedRoomClass (get payload "class")))
| room_absent_place_name :
    payload !! "class" = Some (VStr "Room") -> ~ missing payload "id" ->
    payload !! "placeName" = None ->
    room_failure payload (KeyError "placeName").

(** ** The room helpers of the voice handlers

    These are the functions of [src/lambda_function.py] that do not talk to
    the network or to the voice platform: the room tables,
    [_strip_articles_and_accents], [normalize_room], [say_room_es],
    [room_blind_ids] and [all_blind_ids]. *)

(** The two translation tables are dictionaries written out, with no key
    twice; each is the map of its items. *)
Definition ES_TO_INTERNAL : gmap string string :=
  list_to_map
    [ ("sala", "WoKo");
      ("pasillo", "Flur");
      ("cuarto", "Schlafen");
      ("dormitorio", "Schlafen");
      ("recamara", "Schlafen"); ("recámara", "Schlafen");
      ("bano", "Bad"); ("baño", "Bad");
      ("woko", "WoKo"); ("wohnzimmer", "WoKo");
      ("flur", "Flur"); ("hall", "Flur");
      ("schlafen", "Schlafen"); ("bad", "Bad") ].

Definition INTERNAL_TO_ES : gmap string string :=
  list_to_map
    [ ("WoKo", "la sala");
      ("Flur", "el pasillo");
      ("Schlafen", "el cuarto");
      ("Bad", "el baño") ].

(** [FALLBACK_BLINDS] is walked in the order it is written
    ([FALLBACK_BLINDS.values()]), so it is kept as the list of its items. *)
Definition FALLBACK_BLINDS : list (string * list string) :=
  [ ("WoKo", ["Blind_22"; "Blind_21"]);
    ("Flur", ["Blind_11"]);
    ("Schlafen", ["Blind_41"]);
    ("Bad", []) ].

(** [FALLBACK_BLINDS.get(room_internal, [])]. *)
Definition fallback_blinds (room_internal : string) : list string :=
  match List.find (fun item => String.eqb (fst item) room_internal) FALLBACK_BLINDS with
  | Some item => snd item
  | None => []
  end.

(** Python's own string routines that [_strip_articles_and_accents] calls,
    taken as they are: [text.strip()], [t.lower()], and the removal of the
    combining marks of the NFD form
    (["".join(c for c in unicodedata.normalize("NFD", t)
              if unicodedata.category(c) != "Mn")]). *)
Record unicode_library : Type := {
  py_strip : string -> string;
  py_lower : string -> string;
  nfd_without_marks : string -> string }.

(** [t[n:]]. *)
Fixpoint skip (n : nat) (t : string) : string :=
  match n, t with
  | O, _ => t
  | S _, EmptyString => EmptyString
  | S m, String _ rest => skip m rest
  end.

(** The loop over the articles: the first article that [t] starts with is
    cut off, and the loop ends there. *)
Fixpoint drop_article (articles : list string) (t : string) : string :=
  match articles with
  | [] => t
  | art :: others =>
      if String.prefix art t then skip (String.length art) t
      else drop_article others t
  end.

(** [t.replace("ñ", "n")], on the UTF-8 bytes of [t]: the letter is the
    pair of bytes 195, 177. *)
Fixpoint replace_enye (t : string) : string :=
  match t with
  | EmptyString => EmptyString
  | String a rest =>
      match rest with
      | String b after =>
          if (Ascii.nat_of_ascii a =? 195)%nat && (Ascii.nat_of_ascii b =? 177)%nat
          then String "n"%char (replace_enye after)
          else String a (replace_enye rest)
      | EmptyString => String a EmptyString
      end
  end.

Definition _strip_articles_and_accents (U : unicode_library) (text : string) : string :=
  let t := py_lower U (py_strip U text) in
  let t := drop_article ["la "; "el "; "los "; "las "] t in
  let t := nfd_without_marks U t in
  replace_enye t.

Definition normalize_room (U : unicode_library) (spoken : option string)
  : option string :=
  match spoken with
  | None | Some EmptyString => None
  | Some text => ES_TO_INTERNAL !! _strip_articles_and_accents U text
  end.

Definition say_room_es (internal : string) : string :=
  default internal (INTERNAL_TO_ES !! internal).

(** What the two functions below read of [get_client().discovered] once
    discovery has been done: the room found by name, if any (a room that is
    found counts as true in [if room]), and all the rooms, each room being
    the devices of [room.devices.values()] in their order. *)
Record discovered : Type := {
  find_room_by_name : string -> option (list Device);
  get_rooms : list (list Device) }.

(** [isinstance(dev, Blind)]. *)
Definition isinstance_Blind (dev : Device) : bool :=
  match dev with
  | Blind _ _ _ _ _ => true
  | _ => false
  end.

Definition room_blind_ids (D : discovered) (room_internal : string) : list value :=
  let ids :=
    match find_room_by_name D room_internal with
    | Some devices => device_identifier <$> List.filter isinstance_Blind devices
    | None => []
    end in
  match ids with
  | [] => VStr <$> fallback_blinds room_internal
  | _ => ids
  end.

(** [x in ids], for [py_eq] Python's [==]. *)
Definition py_in (py_eq : value -> value -> bool) (x : value) (ids : list value) : bool :=
  existsb (py_eq x) ids.

(** [if x not in ids: ids.append(x)]. *)
Definition append_new (py_eq : value -> value -> bool) (ids : list value) (x : value)
  : list value :=
  if py_in py_eq x ids then ids else ids ++ [x].

Definition all_blind_ids (py_eq : value -> value -> bool) (D : discovered) : list value :=
  let ids :=
    foldl (fun ids room =>
             foldl (fun ids dev =>
                      if isinstance_Blind dev
                      then append_new py_eq ids (device_identifier dev)
                      else ids)
                   ids room)
          [] (get_rooms D) in
  foldl (fun ids rid_list =>
           foldl (fun ids i => append_new py_eq ids (VStr i)) ids rid_list)
        ids (snd <$> FALLBACK_BLINDS).

(** The internal names of the rooms. *)
Definition internal_rooms : list string := ["WoKo"; "Flur"; "Schlafen"; "Bad"].

(** No Blind was discovered for the room: the room is not known to the
    registry, or none of its devices is a Blind. *)
Definition no_blind_discovered (D : discovered) (room_internal : string) : Prop :=
  match find_room_by_name D room_internal with
  | Some devices => Forall (fun dev => isinstance_Blind dev = false) devices
  | None => True
  end.

(** The value is a string. *)
Definition is_str (v : value) : Prop := exists s, v = VStr s.

(** A list of identifiers that are strings, none of them twice. *)
Definition each_once (ids : list value) : Prop := NoDup ids /\ Forall is_str ids.

(** The letter "ñ" occurs in the UTF-8 bytes of [t]. *)
Fixpoint contains_enye (t : string) : bool :=
  match t with
  | EmptyString => false
  | String a rest =>
      match rest with
      | String b _ =>
          ((Ascii.nat_of_ascii a =? 195)%nat && (Ascii.nat_of_ascii b =? 177)%nat)
          || contains_enye rest
      | EmptyString => false
      end
  end.

(** ** Concrete payloads *)

Definition entry_without_value : dict := {[ "name" := VStr "blindLevel" ]}.

Definition heater_without_properties : dict :=
  {[ "class" := VStr "Device"; "id" := VStr "heater-1"; "typeName" := VStr "Heater";
     "placeIdentifier" := VStr "room-1"; "friendlyName" := VStr "Heizung" ]}.

Definition heater_with_empty_properties : dict :=
  <["properties" := VList []]> heater_without_properties.

Definition device_without_type_name : dict :=
  {[ "class" := VStr "Device"; "id" := VStr "device-1" ]}.

Definition payload_without_class : dict := {[ "id" := VStr "device-1" ]}.

Definition blind_without_level : dict :=
  {[ "class" := VStr "Device"; "id" := VStr "blind-1"; "typeName" := VStr "Blind";
     "placeIdentifier" := VStr "room-1"; "friendlyName" := VStr "Rollo";
     "properties" := VList [] ]}.

Definition setpoint_entry : dict :=
  {[ "name" := VStr "heatingTemperatureSetting"; "value" := VInt 21 ]}.
Definition battery_entry : dict :=
  {[ "name" := VStr "batteryLevel"; "value" := VInt 80 ]}.
Definition valve_entry : dict :=
  {[ "name" := VStr "valvePosition"; "value" := VInt 30 ]}.
Definition blind_entry : dict :=
  {[ "name" := VStr "blindLevel"; "value" := VInt 40 ]}.
Definition second_blind_entry : dict :=
  {[ "name" := VStr "blindLevel"; "value" := VInt 99 ]}.
Definition unrelated_entry : dict :=
  {[ "name" := VStr "signalStrength"; "value" := VInt 3 ]}.

Definition prefix_heater : dict :=
  {[ "class" := VStr "Device"; "id" := VStr "heater-1"; "typeName" := VStr "Heater";
     "placeIdentifier" := VStr "room-1"; "friendlyName" := VStr "Heizung";
     "modelName" := VStr "38de6001c3ad-XYZ";
     "properties" := props [setpoint_entry; battery_entry] ]}.

Definition radiator_heater : dict :=
  {[ "class" := VStr "Device"; "id" := VStr "heater-2"; "typeName" := VStr "Heater";
     "placeIdentifier" := VStr "room-1"; "friendlyName" := VStr "Heizung";
     "properties" := props [setpoint_entry; valve_entry] ]}.

Definition unknown_heater : dict :=
  {[ "class" := VStr "Device"; "id" := VStr "heater-3"; "typeName" := VStr "Heater";
     "placeIdentifier" := VStr "room-1"; "friendlyName" := VStr "Heizung";
     "properties" := props [unrelated_entry] ]}.

Definition blind_without_properties : dict :=
  {[ "class" := VStr "Device"; "id" := VStr "blind-1"; "typeName" := VStr "Blind";
     "placeIdentifier" := VStr "room-1"; "friendlyName" := VStr "Rollo" ]}.

Definition blind_payload : dict :=
  <["properties" := props [unrelated_entry; blind_entry; second_blind_entry]]>
    blind_without_properties.

Definition room_payload : dict :=
  {[ "class" := VStr "Room"; "id" := VStr "room-1"; "placeName" := VStr "Flur" ]}.

Definition room_without_place_name : dict :=
  {[ "class" := VStr "Room"; "id" := VStr "room-1" ]}.

Definition lamp_payload : dict :=
  {[ "class" := VStr "Device"; "id" := VStr "lamp-1"; "typeName" := VStr "Lamp";
     "placeIdentifier" := VStr "room-1"; "friendlyName" := VStr "Lampe";
     "modelName" := VInt 5; "properties" := VInt 3 ]}.

Definition lower_case_lamp_payload : dict :=
  <["typeName" := VStr "lamp"]> lamp_payload.

Definition humidity_entry : dict :=
  {[ "name" := VStr "humidityLevel"; "value" := VInt 55 ]}.
Definition temperature_entry : dict :=
  {[ "name" := VStr "currentEnvironmentTemperature"; "value" := VInt 21 ]}.
Definition setpoint_without_value : dict :=
  {[ "name" := VStr "heatingTemperatureSetting" ]}.

Definition humidity_payload : dict :=
  {[ "class" := VStr "Device"; "id" := VStr "sensor-1";
     "typeName" := VStr "HumiditySensor";
     "placeIdentifier" := VStr "room-1"; "friendlyName" := VStr "Sensor";
     "properties" := props [temperature_entry; humidity_entry] ]}.

Definition setpoint_heater : dict :=
  {[ "class" := VStr "Device"; "id" := VStr "heater-4"; "typeName" := VStr "Heater";
     "placeIdentifier" := VStr "room-1"; "friendlyName" := VStr "Heizung";
     "properties" := props [setpoint_entry] ]}.

Definition valueless_setpoint_heater : dict :=
  <["properties" := props [setpoint_without_value]]> setpoint_heater.

Definition numeric_model_heater : dict :=
  <["modelName" := VInt 5]> setpoint_heater.

Definition blind_with_null_properties : dict :=
  <["properties" := VNone]> blind_without_properties.

Definition heating_payload : dict :=
  {[ "id" := VStr "heating-1"; "name" := VStr "Flur"; "targetTemperature" := VInt 21 ]}.

(** The Unicode routines on a text that is trimmed, in lower case and
    without accents: each of them returns such a text as it is. *)
Definition plain_text_library : unicode_library :=
  {| py_strip := fun t => t; py_lower := fun t => t; nfd_without_marks := fun t => t |}.

(** [==] on two strings, and unequal otherwise. *)
Definition str_eq (a b : value) : bool :=
  match a, b with
  | VStr s, VStr t => String.eqb s t
  | _, _ => false
  end.

Definition living_room_devices : list Device :=
  [ Blind (VStr "Blind_7") (VStr "Rollo links") (VStr "room-1") VNone (VInt 40);
    Lamp (VStr "Lamp_1") (VStr "Lampe") (VStr "room-1") VNone;
    Blind (VStr "Blind_22") (VStr "Rollo rechts") (VStr "room-1") VNone (VInt 0) ].

Definition one_room_discovered : discovered :=
  {| find_room_by_name :=
       fun name => if String.eqb name "WoKo" then Some living_room_devices else None;
     get_rooms := [living_room_devices] |}.

(** ** Basic facts *)

(** Membership in a list that is written out. *)
Ltac in_list := repeat first [apply list_elem_of_here | apply list_elem_of_further].

Lemma eq_str_true v s : eq_str v s = true <-> v = VStr s.
Proof.
  destruct v; simpl; try (split; [discriminate | intros [=]]).
  rewrite String.eqb_eq. split; [congruence | intros [=]; done].
Qed.

Lemma eq_str_false v s : eq_str v s = false <-> v <> VStr s.
Proof.
  rewrite <- eq_str_true. destruct (eq_str v s); split; congruence.
Qed.

Lemma get_Some (d : dict) k v : d !! k = Some v -> get d k = v.
Proof. unfold get. intros ->. reflexivity. Qed.

Lemma get_None (d : dict) k : d !! k = None -> get d k = VNone.
Proof. unfold get. intros ->. reflexivity. Qed.

Lemma subscript_Some (d : dict) k v : d !! k = Some v -> subscript d k = Ok v.
Proof. unfold subscript. intros ->. reflexivity. Qed.

Lemma subscript_None (d : dict) k : d !! k = None -> subscript d k = Raise (KeyError k).
Proof. unfold subscript. intros ->. reflexivity. Qed.

Lemma is_named_true key e : is_named key e = true <-> named key e.
Proof.
  unfold is_named, named, get. rewrite eq_str_true.
  destruct (e !! "name"); simpl; split; congruence.
Qed.

Lemma is_named_false key e : is_named key e = false <-> ~ named key e.
Proof.
  rewrite <- is_named_true. destruct (is_named key e); split; congruence.
Qed.

Lemma truthy_dict_lookup (d : dict) k v : d !! k = Some v -> truthy (VDict d) = true.
Proof.
  intros H. simpl. apply elem_of_map_to_list in H.
  destruct (map_to_list d); [inversion H | reflexivity].
Qed.

(** ** The lookup helpers on a list of items *)

Lemma next_named_app before key rest :
  Forall (passed_over key) before ->
  next_named (before ++ rest) key = next_named rest key.
Proof.
  induction 1 as [|p before [d [-> Hd]] _ IH]; simpl; [reflexivity|].
  apply is_named_false in Hd. unfold is_named in Hd. rewrite Hd. exact IH.
Qed.

Lemma next_named_first key items e :
  first_item key items e -> next_named items key = Ok (Some e).
Proof.
  intros (before & after & -> & Hb & He).
  rewrite next_named_app by assumption. simpl.
  apply is_named_true in He. unfold is_named in He. rewrite He. reflexivity.
Qed.

Lemma next_named_Some_inv key items e :
  next_named items key = Ok (Some e) -> first_item key items e.
Proof.
  induction items as [|p items IH]; simpl; [discriminate|].
  destruct p; try discriminate.
  destruct (eq_str (get d "name") key) eqn:Hn.
  - intros [= ->]. exists [], items. repeat split; [constructor|].
    apply is_named_true. exact Hn.
  - intros H. destruct (IH H) as (before & after & -> & Hb & He).
    exists (VDict d :: before), after. repeat split; [|assumption].
    constructor; [|assumption]. exists d. split; [reflexivity|].
    apply is_named_false. exact Hn.
Qed.

Lemma next_named_None_inv key items :
  next_named items key = Ok None -> Forall (passed_over key) items.
Proof.
  induction items as [|p items IH]; simpl; [constructor|].
  destruct p; try discriminate.
  destruct (eq_str (get d "name") key) eqn:Hn; [discriminate|].
  intros H. constructor; [|auto]. exists d. split; [reflexivity|].
  apply is_named_false. exact Hn.
Qed.

Lemma passed_over_dicts key (l : list dict) :
  Forall (fun e => ~ named key e) l -> Forall (passed_over key) (VDict <$> l).
Proof.
  induction 1; simpl; constructor; [|assumption]. eexists; split; [reflexivity|assumption].
Qed.

(** On a list of dictionaries the scan is [List.find]. *)
Lemma next_named_dicts (l : list dict) key :
  next_named (VDict <$> l) key = Ok (List.find (is_named key) l).
Proof.
  induction l as [|e l IH]; simpl; [reflexivity|].
  unfold is_named at 1. destruct (eq_str (get e "name") key); [reflexivity|exact IH].
Qed.

Lemma find_first key (l1 l2 : list dict) e :
  Forall (fun x => ~ named key x) l1 -> named key e ->
  List.find (is_named key) (l1 ++ e :: l2) = Some e.
Proof.
  intros H He. induction H as [|x l1 Hx _ IH]; simpl.
  - apply is_named_true in He. rewrite He. reflexivity.
  - apply is_named_false in Hx. rewrite Hx. exact IH.
Qed.

Lemma find_absent key (l : list dict) :
  Forall (fun x => ~ named key x) l -> List.find (is_named key) l = None.
Proof.
  induction 1 as [|x l Hx _ IH]; simpl; [reflexivity|].
  apply is_named_false in Hx. rewrite Hx. exact IH.
Qed.

Lemma _get_prop_optional_items items key dflt found :
  next_named items key = Ok found ->
  _get_prop_optional (VList items) key dflt = Ok (value_or dflt found).
Proof.
  intros H. unfold _get_prop_optional, py_iter, bind. rewrite H.
  destruct found as [e|]; [|reflexivity].
  apply next_named_Some_inv in H as (_ & _ & _ & _ & He).
  rewrite (truthy_dict_lookup _ _ _ He). unfold contains, get. simpl.
  destruct (e !! "value"); reflexivity.
Qed.

(** The code's optional lookup, on a list of dictionaries, is the spec's. *)
Lemma _get_prop_optional_props l key dflt :
  _get_prop_optional (props l) key dflt = Ok (lookup_optional l key dflt).
Proof.
  unfold props. erewrite _get_prop_optional_items by apply next_named_dicts.
  reflexivity.
Qed.

Lemma names_of_dicts (l : list dict) : names_of (VDict <$> l) = Ok (names l).
Proof.
  induction l as [|e l IH]; [reflexivity|].
  change (names_of (VDict <$> e :: l))
    with (let* ns := names_of (VDict <$> l) in Ok (get e "name" :: ns)).
  rewrite IH. reflexivity.
Qed.

Lemma available_names_props l : available_names (props l) = Ok (names l).
Proof. unfold available_names, props. simpl. apply names_of_dicts. Qed.

(** The code's required lookup on a list of dictionaries. *)
Lemma _get_prop_props l key :
  _get_prop (props l) key =
  match lookup_optional l key VNone with
  | VNone => Raise (ValueError (FailedToFind key (names l)))
  | v => Ok v
  end.
Proof.
  unfold _get_prop. rewrite _get_prop_optional_props. simpl.
  destruct (lookup_optional l key VNone); try reflexivity.
  rewrite available_names_props. reflexivity.
Qed.

Lemma any_name_dicts test (l : list dict) :
  any_name test (VDict <$> l) = Ok (existsb (fun e => test (get e "name")) l).
Proof.
  induction l as [|e l IH]; simpl; [reflexivity|].
  destruct (test (get e "name")); [reflexivity|exact IH].
Qed.

Lemma any_named_props test l :
  any_named test (props l) = Ok (existsb (fun e => test (get e "name")) l).
Proof. unfold any_named, props. simpl. apply any_name_dicts. Qed.

Lemma find_Some_first key (l : list dict) e :
  List.find (is_named key) l = Some e <-> first_named key l e.
Proof.
  split.
  - induction l as [|x l IH]; simpl; [discriminate|].
    destruct (is_named key x) eqn:Hx.
    + intros [= ->]. exists [], l. repeat split; [constructor|].
      apply is_named_true. exact Hx.
    + intros H. destruct (IH H) as (l1 & l2 & -> & H1 & He).
      exists (x :: l1), l2. repeat split; [|assumption].
      constructor; [apply is_named_false; exact Hx | assumption].
  - intros (l1 & l2 & -> & H1 & He). apply find_first; assumption.
Qed.

Lemma find_None_absent key (l : list dict) :
  List.find (is_named key) l = None <-> Forall (fun x => ~ named key x) l.
Proof.
  split; [|apply find_absent].
  induction l as [|x l IH]; simpl; [constructor|].
  destruct (is_named key x) eqn:Hx; [discriminate|].
  intros H. constructor; [apply is_named_false; exact Hx | auto].
Qed.

Lemma lookup_optional_first key l e dflt :
  first_named key l e -> lookup_optional l key dflt = default dflt (e !! "value").
Proof.
  intros H. apply find_Some_first in H. unfold lookup_optional. rewrite H. reflexivity.
Qed.

Lemma lookup_optional_absent key l dflt :
  Forall (fun x => ~ named key x) l -> lookup_optional l key dflt = dflt.
Proof.
  intros H. apply find_None_absent in H. unfold lookup_optional. rewrite H. reflexivity.
Qed.

(** The required lookup has no usable value exactly when the key is absent,
    or its first entry has no value, or a null one. *)
Lemma lookup_optional_None key l :
  lookup_optional l key VNone = VNone <->
  (Forall (fun e => ~ named key e) l \/
   exists e, first_named key l e /\ (e !! "value" = None \/ e !! "value" = Some VNone)).
Proof.
  unfold lookup_optional. destruct (List.find (is_named key) l) as [e|] eqn:Hf.
  - apply find_Some_first in Hf. split.
    + intros H. right. exists e. split; [assumption|].
      destruct (e !! "value") as [v|]; simpl in H; [right; congruence | left; reflexivity].
    + intros [Habs | (e' & He' & Hv)].
      * apply find_None_absent in Habs. apply find_Some_first in Hf. congruence.
      * apply find_Some_first in Hf, He'. assert (e' = e) as -> by congruence.
        destruct Hv as [-> | ->]; reflexivity.
  - apply find_None_absent in Hf. split; [left; assumption | reflexivity].
Qed.

Lemma _get_prop_value key l e v :
  first_named key l e -> e !! "value" = Some v -> v <> VNone ->
  _get_prop (props l) key = Ok v.
Proof.
  intros He Hv Hn. rewrite _get_prop_props, (lookup_optional_first _ _ _ _ He), Hv.
  simpl. destruct v; congruence.
Qed.

Lemma _get_prop_absent key l :
  Forall (fun e => ~ named key e) l ->
  _get_prop (props l) key = Raise (ValueError (FailedToFind key (names l))).
Proof.
  intros H. rewrite _get_prop_props, lookup_optional_absent by assumption. reflexivity.
Qed.

(** ** The lookup helpers: claims C3 and C6 *)

(** C3, as stated, fails: an entry named [blindLevel] is present in the list
    [[{"name": "blindLevel"}]], yet the required lookup raises, because the
    entry has no value. *)
Lemma required_lookup_counterexample :
  named "blindLevel" entry_without_value /\
  entry_without_value ∈ [entry_without_value] /\
  _get_prop (props [entry_without_value]) "blindLevel" =
    Raise (ValueError (FailedToFind "blindLevel" [VStr "blindLevel"])).
Proof.
  split; [reflexivity|]. split; [apply list_elem_of_here | vm_compute; reflexivity].
Qed.

(** C3, amended: on every list of property entries and every key, the
    required lookup raises [ValueError], its message carrying the names of
    all the entries, if and only if no entry has that name or the first one
    that has it carries no value or a null one; when the first entry with
    that name carries a value that is not null, the lookup returns it; and
    it raises nothing else. *)
Theorem required_lookup_fails_iff (l : list dict) (key : string) :
  (_get_prop (props l) key = Raise (ValueError (FailedToFind key (names l))) <->
     (Forall (fun e => ~ named key e) l \/
      exists e, first_named key l e /\ (e !! "value" = None \/ e !! "value" = Some VNone)))
  /\ (forall e v, first_named key l e -> e !! "value" = Some v -> v <> VNone ->
        _get_prop (props l) key = Ok v)
  /\ (forall ex, _get_prop (props l) key = Raise ex ->
        ex = ValueError (FailedToFind key (names l))).
Proof.
  rewrite _get_prop_props. split; [|split].
  - rewrite <- lookup_optional_None.
    destruct (lookup_optional l key VNone); split; congruence.
  - intros e v He Hv Hn. rewrite <- _get_prop_props. apply (_get_prop_value _ _ e); assumption.
  - intros ex. destruct (lookup_optional l key VNone); congruence.
Qed.

(** C6, as stated, fails for the required lookup: with a first entry named
    [blindLevel] that has no value, what follows that entry changes the
    outcome. Alone, the lookup raises the [ValueError] naming one entry;
    followed by another entry, the one naming two; followed by a number, an
    [AttributeError]. *)
Lemma lookup_first_match_counterexample :
  _get_prop (VList [VDict entry_without_value]) "blindLevel" =
    Raise (ValueError (FailedToFind "blindLevel" [VStr "blindLevel"]))
  /\ _get_prop (VList [VDict entry_without_value; VDict unrelated_entry]) "blindLevel" =
       Raise (ValueError (FailedToFind "blindLevel"
                            [VStr "blindLevel"; VStr "signalStrength"]))
  /\ _get_prop (VList [VDict entry_without_value; VInt 7]) "blindLevel" =
       Raise (AttributeError "get")
  /\ _get_prop (VList [VDict entry_without_value]) "blindLevel" <>
     _get_prop (VList [VDict entry_without_value; VDict unrelated_entry]) "blindLevel".
Proof.
  repeat split; try (vm_compute; reflexivity). vm_compute. discriminate.
Qed.

(** C6, amended: in a list whose entries before [e] are not named [key] and
    where [e] is, whatever follows [e] (further entries of the same name,
    items that are no dictionaries), the optional lookup returns the value
    of [e], or the default when [e] has none, and the required lookup
    returns [v] exactly when [e] carries the value [v] and [v] is not null.
    When [e] has no value or a null one, the required lookup fails, and its
    error is made from the whole list: the [ValueError] that lists the names
    of all the items, or the error met while collecting them; on a list of
    dictionaries it lists the names of all the entries. The optional lookup
    returns the default when no entry is named [key]. Names are compared
    exactly. *)
Theorem lookup_first_match (l1 : list dict) (e : dict) (rest : list value)
    (key : string) (dflt : value) :
  Forall (fun x => ~ named key x) l1 -> named key e ->
  let properties := VList ((VDict <$> l1) ++ VDict e :: rest) in
  _get_prop_optional properties key dflt = Ok (default dflt (e !! "value"))
  /\ (forall v, _get_prop properties key = Ok v <-> e !! "value" = Some v /\ v <> VNone)
  /\ (e !! "value" = None \/ e !! "value" = Some VNone ->
        _get_prop properties key =
          let* available := available_names properties in
          Raise (ValueError (FailedToFind key available)))
  /\ (forall l2, rest = VDict <$> l2 ->
        e !! "value" = None \/ e !! "value" = Some VNone ->
        _get_prop properties key =
          Raise (ValueError (FailedToFind key (names (l1 ++ e :: l2)))))
  /\ (forall l, Forall (fun x => ~ named key x) l ->
        _get_prop_optional (props l) key dflt = Ok dflt).
Proof.
  intros H1 He properties.
  assert (Hnext : next_named ((VDict <$> l1) ++ VDict e :: rest) key = Ok (Some e)).
  { apply next_named_first. exists (VDict <$> l1), rest.
    repeat split; [apply passed_over_dicts|]; assumption. }
  assert (Hfail : e !! "value" = None \/ e !! "value" = Some VNone ->
                  _get_prop properties key =
                    let* available := available_names properties in
                    Raise (ValueError (FailedToFind key available))).
  { intros Hv. unfold _get_prop, properties.
    erewrite _get_prop_optional_items by exact Hnext. simpl value_or.
    destruct Hv as [-> | ->]; reflexivity. }
  split; [|split; [|split; [|split]]].
  - unfold properties. erewrite _get_prop_optional_items by exact Hnext. reflexivity.
  - intros v. unfold _get_prop, properties.
    erewrite _get_prop_optional_items by exact Hnext. simpl.
    destruct (e !! "value") as [w|]; simpl.
    + destruct w; simpl;
        try (split; [intros [= <-]; split; [reflexivity|discriminate]
                    | intros [[= <-] _]; reflexivity]).
      split; [|intros [[= <-] Hn]; congruence].
      destruct (available_names _); discriminate.
    + split; [|intros [[=] _]]. destruct (available_names _); discriminate.
  - exact Hfail.
  - intros l2 Hrest Hv. rewrite (Hfail Hv). subst rest.
    assert (Hprops : properties = props (l1 ++ e :: l2)).
    { unfold properties, props. rewrite fmap_app, fmap_cons. reflexivity. }
    rewrite Hprops, available_names_props. reflexivity.
  - intros l Hl. rewrite _get_prop_optional_props, lookup_optional_absent by assumption.
    reflexivity.
Qed.

(** ** Presence tests and filtered lists *)

Lemma radiator_name_true n :
  radiator_name n = true <->
  n = VStr "batteryLevel" \/ n = VStr "valvePosition" \/ n = VStr "heatingMode".
Proof.
  unfold radiator_name. rewrite !orb_true_iff, !eq_str_true. tauto.
Qed.

Lemma get_name_is key (e : dict) : get e "name" = VStr key <-> named key e.
Proof.
  unfold named, get. destruct (e !! "name"); simpl; split; congruence.
Qed.

Lemma existsb_radiator (l : list dict) :
  existsb (fun e => radiator_name (get e "name")) l = true <-> Exists radiator_entry l.
Proof.
  rewrite existsb_exists, Exists_exists. unfold radiator_entry.
  split; intros (e & Hin & He); exists e; (split; [first [apply list_elem_of_In; exact Hin | apply list_elem_of_In in Hin; exact Hin]|]).
  - apply radiator_name_true in He. rewrite !get_name_is in He. exact He.
  - apply radiator_name_true. rewrite !get_name_is. exact He.
Qed.

Lemma existsb_named key (l : list dict) :
  existsb (fun e => eq_str (get e "name") key) l = true <-> Exists (named key) l.
Proof.
  rewrite existsb_exists, Exists_exists.
  split; intros (e & Hin & He); exists e; (split; [first [apply list_elem_of_In; exact Hin | apply list_elem_of_In in Hin; exact Hin]|]).
  - apply is_named_true. exact He.
  - apply is_named_true in He. exact He.
Qed.

Lemma find_filter {A} (f g : A -> bool) (l : list A) :
  (forall x, f x = true -> g x = true) ->
  List.find f (List.filter g l) = List.find f l.
Proof.
  intros Hfg. induction l as [|x l IH]; simpl; [reflexivity|].
  destruct (f x) eqn:Hf.
  - rewrite (Hfg _ Hf). simpl. rewrite Hf. reflexivity.
  - destruct (g x); simpl; [rewrite Hf|]; exact IH.
Qed.

Lemma existsb_filter {A} (f g : A -> bool) (l : list A) :
  (forall x, f x = true -> g x = true) ->
  existsb f (List.filter g l) = existsb f l.
Proof.
  intros Hfg. induction l as [|x l IH]; simpl; [reflexivity|].
  destruct (f x) eqn:Hf.
  - rewrite (Hfg _ Hf). simpl. rewrite Hf. reflexivity.
  - destruct (g x); simpl; [rewrite Hf|]; exact IH.
Qed.

Lemma is_named_other key key' e :
  key <> key' -> is_named key e = true -> negb (is_named key' e) = true.
Proof.
  intros Hne H. apply negb_true_iff, is_named_false. apply is_named_true in H.
  unfold named in *. congruence.
Qed.

Lemma lookup_optional_without key key' l dflt :
  key <> key' -> lookup_optional (without key' l) key dflt = lookup_optional l key dflt.
Proof.
  intros Hne. unfold lookup_optional, without.
  rewrite find_filter by (intros x; apply is_named_other; exact Hne). reflexivity.
Qed.

(** ** Device payloads that reach the variant resolver *)

Section Dispatch.
Variables (payload : dict) (ident type_name : value).
Hypothesis Hclass : payload !! "class" = Some (VStr "Device").
Hypothesis Hid : payload !! "id" = Some ident.
Hypothesis Hnonempty : truthy ident = true.

Lemma create_device_dispatch :
  create_device payload =
  let* type_name := subscript payload "typeName" in
  _create_device ident type_name payload.
Proof.
  unfold create_device. rewrite (get_Some _ _ _ Hclass), (get_Some _ _ _ Hid).
  rewrite Hnonempty. reflexivity.
Qed.
End Dispatch.

Section Heater.
Variables (payload : dict) (ident friendly place : value) (l : list dict).
Hypothesis Hclass : payload !! "class" = Some (VStr "Device").
Hypothesis Hid : payload !! "id" = Some ident.
Hypothesis Hnonempty : truthy ident = true.
Hypothesis Htype : payload !! "typeName" = Some (VStr "Heater").
Hypothesis Hplace : payload !! "placeIdentifier" = Some place.
Hypothesis Hfriendly : payload !! "friendlyName" = Some friendly.
Hypothesis Hprops : payload !! "properties" = Some (props l).

Lemma create_device_heater :
  create_device payload =
  let* special := model_matches (get payload "modelName") in
  if special then in_floor_valve_steps payload ident friendly place l
  else if existsb (fun e => radiator_name (get e "name")) l then
    Ok (RadiatorValve ident friendly place (get payload "manufacturer")
          (lookup_optional l "currentEnvironmentTemperature" VNone)
          (lookup_optional l "batteryLevel" VNone)
          (lookup_optional l "heatingMode" VNone)
          (lookup_optional l "valvePosition" VNone))
  else if existsb (fun e => eq_str (get e "name") "heatingTemperatureSetting") l then
    in_floor_valve_steps payload ident friendly place l
  else
    Raise (UnsupportedDeviceError (UnrecognizedHeater (names l)) ident payload).
Proof.
  rewrite (create_device_dispatch _ _ Hclass Hid Hnonempty).
  rewrite (subscript_Some _ _ _ Htype). unfold bind at 1.
  unfold _create_device.
  rewrite (subscript_Some _ _ _ Hplace), (subscript_Some _ _ _ Hfriendly),
    (subscript_Some _ _ _ Hprops).
  unfold bind at 1 2 3. simpl eq_str. cbv iota.
  rewrite !_get_prop_optional_props, !any_named_props, available_names_props.
  unfold in_floor_valve_steps.
  destruct (model_matches (get payload "modelName")) as [[|]|]; reflexivity.
Qed.

(** C1: a Heater payload whose [modelName] is a string starting with
    ["38de6001c3ad"] is resolved by the required lookup of
    [heatingTemperatureSetting] alone, whatever other properties (radiator
    ones included) the list holds: the classifier returns an InFloorValve
    with the setpoint, the optional ambient temperature and the optional
    [deviceStatus], ["UNKNOWN"] by default; when no entry is named
    [heatingTemperatureSetting] it raises the property-not-found
    [ValueError]. *)
Theorem model_prefix_gives_in_floor_valve (model : string) :
  payload !! "modelName" = Some (VStr model) ->
  String.prefix "38de6001c3ad" model = true ->
  (create_device payload =
     let* setting := _get_prop (props l) "heatingTemperatureSetting" in
     Ok (InFloorValve ident friendly place (get payload "manufacturer")
           (lookup_optional l "currentEnvironmentTemperature" VNone)
           setting
           (lookup_optional l "deviceStatus" (VStr "UNKNOWN"))))
  /\ (forall e v,
        first_named "heatingTemperatureSetting" l e ->
        e !! "value" = Some v -> v <> VNone ->
        create_device payload =
          Ok (InFloorValve ident friendly place (get payload "manufacturer")
                (lookup_optional l "currentEnvironmentTemperature" VNone)
                v
                (lookup_optional l "deviceStatus" (VStr "UNKNOWN"))))
  /\ (Forall (fun e => ~ named "heatingTemperatureSetting" e) l ->
        create_device payload =
          Raise (ValueError (FailedToFind "heatingTemperatureSetting" (names l)))).
Proof.
  intros Hmodel Hprefix.
  assert (Heq : create_device payload =
                in_floor_valve_steps payload ident friendly place l).
  { rewrite create_device_heater, (get_Some _ _ _ Hmodel). simpl.
    rewrite Hprefix. reflexivity. }
  split; [exact Heq|]. rewrite Heq. unfold in_floor_valve_steps. split.
  - intros e v He Hv Hn. rewrite (_get_prop_value _ _ e v He Hv Hn). reflexivity.
  - intros Habs. rewrite (_get_prop_absent _ _ Habs). reflexivity.
Qed.

Lemma heater_radiator_path :
  model_matches (get payload "modelName") = Ok false ->
  Exists radiator_entry l ->
  create_device payload =
    Ok (RadiatorValve ident friendly place (get payload "manufacturer")
          (lookup_optional l "currentEnvironmentTemperature" VNone)
          (lookup_optional l "batteryLevel" VNone)
          (lookup_optional l "heatingMode" VNone)
          (lookup_optional l "valvePosition" VNone)).
Proof.
  intros Hmodel Hrad. rewrite create_device_heater, Hmodel. simpl.
  apply existsb_radiator in Hrad. rewrite Hrad. reflexivity.
Qed.

(** C7: a Heater payload whose model name does not match the prefix (it is
    absent, null, or a string that does not start with it) and whose
    property list has no entry named [batteryLevel], [valvePosition],
    [heatingMode] or [heatingTemperatureSetting] raises
    [UnsupportedDeviceError]; the message holds the names of all the
    entries, and the error carries the identifier and the raw payload. *)
Theorem unrecognized_heater_is_unsupported :
  model_matches (get payload "modelName") = Ok false ->
  Forall (fun e => ~ radiator_entry e /\ ~ named "heatingTemperatureSetting" e) l ->
  create_device payload =
    Raise (UnsupportedDeviceError (UnrecognizedHeater (names l)) ident payload).
Proof.
  intros Hmodel Hnone. rewrite create_device_heater, Hmodel. simpl.
  rewrite Forall_forall in Hnone.
  destruct (existsb (fun e => radiator_name (get e "name")) l) eqn:Hrad.
  { apply existsb_radiator, Exists_exists in Hrad as (e & Hin & He).
    destruct (Hnone e Hin). contradiction. }
  destruct (existsb (fun e => eq_str (get e "name") "heatingTemperatureSetting") l)
    eqn:Hknx; [|reflexivity].
  apply existsb_named, Exists_exists in Hknx as (e & Hin & He).
  destruct (Hnone e Hin). contradiction.
Qed.
End Heater.

Lemma existsb_radiator_without (l : list dict) :
  Exists radiator_entry l ->
  Exists radiator_entry (without "heatingTemperatureSetting" l).
Proof.
  intros H. apply existsb_radiator. apply existsb_radiator in H.
  unfold without. rewrite existsb_filter; [exact H|].
  intros e He. apply negb_true_iff, is_named_false. intros Hs.
  apply radiator_name_true in He. apply get_name_is in Hs.
  rewrite Hs in He. destruct He as [He|[He|He]]; discriminate.
Qed.

(** C2: a Heater payload whose model name does not match the prefix (it is
    absent, null, or a string that does not start with it) and whose list
    has an entry named [batteryLevel], [valvePosition] or [heatingMode] is
    resolved to a RadiatorValve holding the optional ambient temperature,
    battery level, heating mode and valve position; no setpoint is asked
    for, and the entries named [heatingTemperatureSetting] play no part:
    the payload with those entries taken out yields the same device. *)
Theorem radiator_properties_give_radiator_valve
    (payload : dict) (ident friendly place : value) (l : list dict) :
  payload !! "class" = Some (VStr "Device") ->
  payload !! "id" = Some ident ->
  truthy ident = true ->
  payload !! "typeName" = Some (VStr "Heater") ->
  payload !! "placeIdentifier" = Some place ->
  payload !! "friendlyName" = Some friendly ->
  payload !! "properties" = Some (props l) ->
  model_matches (get payload "modelName") = Ok false ->
  Exists radiator_entry l ->
  let valve :=
    RadiatorValve ident friendly place (get payload "manufacturer")
      (lookup_optional l "currentEnvironmentTemperature" VNone)
      (lookup_optional l "batteryLevel" VNone)
      (lookup_optional l "heatingMode" VNone)
      (lookup_optional l "valvePosition" VNone) in
  create_device payload = Ok valve
  /\ create_device
       (<["properties" := props (without "heatingTemperatureSetting" l)]> payload)
     = Ok valve.
Proof.
  intros Hclass Hid Hne Htype Hplace Hfriendly Hprops Hmodel Hrad valve.
  split.
  - apply (heater_radiator_path payload ident friendly place l); assumption.
  - set (l' := without "heatingTemperatureSetting" l).
    set (payload' := <["properties" := props l']> payload).
    assert (Hget : forall k, k <> "properties" -> payload' !! k = payload !! k).
    { intros k Hk. unfold payload'. apply lookup_insert_ne. congruence. }
    rewrite (heater_radiator_path payload' ident friendly place l').
    + unfold valve, l', get. rewrite Hget by discriminate.
      rewrite !lookup_optional_without by discriminate. reflexivity.
    + rewrite Hget by discriminate. assumption.
    + rewrite Hget by discriminate. assumption.
    + assumption.
    + rewrite Hget by discriminate. assumption.
    + rewrite Hget by discriminate. assumption.
    + rewrite Hget by discriminate. assumption.
    + unfold payload'. apply lookup_insert_eq.
    + unfold get. rewrite Hget by discriminate. exact Hmodel.
    + apply existsb_radiator_without. exact Hrad.
Qed.

(** ** The room factory: claim C8 *)

Lemma missing_absent (payload : dict) k : payload !! k = None -> missing payload k.
Proof. unfold missing. intros H. rewrite (get_None _ _ H). reflexivity. Qed.

Lemma missing_empty (payload : dict) k : payload !! k = Some (VStr "") -> missing payload k.
Proof. unfold missing. intros H. rewrite (get_Some _ _ _ H). reflexivity. Qed.

(** C8: a payload of class ["Room"] with a non-empty id and a [placeName]
    gives the Room of that id and place name; a payload with a non-empty
    class other than ["Room"] and a non-empty id raises
    [NotImplementedError] (the unsupported-class error); a payload whose
    class or id is absent or empty raises [ValueError] (the missing-field
    error), naming the class when the class is missing and the id
    otherwise. *)
Theorem room_factory (payload : dict) :
  (forall ident place_name,
      payload !! "class" = Some (VStr "Room") ->
      payload !! "id" = Some ident -> truthy ident = true ->
      payload !! "placeName" = Some place_name ->
      create_room payload = Ok (mkRoom ident place_name))
  /\ (forall cls ident,
        payload !! "class" = Some cls -> truthy cls = true -> cls <> VStr "Room" ->
        payload !! "id" = Some ident -> truthy ident = true ->
        create_room payload = Raise (NotImplementedError (UnsupportedRoomClass cls)))
  /\ (missing payload "class" ->
        create_room payload = Raise (ValueError (Literal "Payload missing class")))
  /\ (~ missing payload "class" -> missing payload "id" ->
        create_room payload = Raise (ValueError (Literal "Payload missing id"))).
Proof.
  unfold create_room, missing. repeat split.
  - intros ident place_name Hc Hi Ht Hp.
    rewrite (get_Some _ _ _ Hc), (get_Some _ _ _ Hi), Ht, (subscript_Some _ _ _ Hp).
    reflexivity.
  - intros cls ident Hc Htc Hne Hi Ht.
    rewrite (get_Some _ _ _ Hc), (get_Some _ _ _ Hi), Ht, Htc.
    apply eq_str_false in Hne. rewrite Hne. reflexivity.
  - intros ->. reflexivity.
  - intros Hc ->. destruct (truthy (get payload "class")); [reflexivity|congruence].
Qed.

(** ** Fields read by subscript: claims C5 and C10 *)

(** C10: with a non-empty id, [create_room] on a payload of class ["Room"]
    without [placeName] raises [KeyError], and [create_device] on a payload
    of class ["Device"] raises [KeyError] for the first of [typeName],
    [placeIdentifier], [friendlyName] that is absent; a [KeyError] is none
    of [ValueError], [NotImplementedError] and [UnsupportedDeviceError]. *)
Theorem absent_fields_raise_KeyError (payload : dict) (ident : value) :
  payload !! "id" = Some ident -> truthy ident = true ->
  (payload !! "class" = Some (VStr "Room") -> payload !! "placeName" = None ->
     create_room payload = Raise (KeyError "placeName"))
  /\ (payload !! "class" = Some (VStr "Device") ->
      (payload !! "typeName" = None ->
         create_device payload = Raise (KeyError "typeName"))
      /\ (is_Some (payload !! "typeName") -> payload !! "placeIdentifier" = None ->
            create_device payload = Raise (KeyError "placeIdentifier"))
      /\ (is_Some (payload !! "typeName") -> is_Some (payload !! "placeIdentifier") ->
          payload !! "friendlyName" = None ->
            create_device payload = Raise (KeyError "friendlyName"))
      /\ (payload !! "typeName" = None \/ payload !! "placeIdentifier" = None \/
          payload !! "friendlyName" = None ->
            exists k, create_device payload = Raise (KeyError k) /\ payload !! k = None /\
                      k ∈ ["typeName"; "placeIdentifier"; "friendlyName"]))
  /\ (forall k msg arg i p,
        KeyError k <> ValueError msg /\ KeyError k <> NotImplementedError msg /\
        KeyError k <> UnsupportedDeviceError arg i p).
Proof.
  intros Hid Ht. split; [|split].
  - intros Hc Hp. unfold create_room.
    rewrite (get_Some _ _ _ Hc), (get_Some _ _ _ Hid), Ht, (subscript_None _ _ Hp).
    reflexivity.
  - intros Hc. rewrite (create_device_dispatch _ _ Hc Hid Ht).
    assert (H1 : payload !! "typeName" = None ->
                 (let* type_name := subscript payload "typeName" in
                  _create_device ident type_name payload) = Raise (KeyError "typeName")).
    { intros H. rewrite (subscript_None _ _ H). reflexivity. }
    assert (H2 : is_Some (payload !! "typeName") -> payload !! "placeIdentifier" = None ->
                 (let* type_name := subscript payload "typeName" in
                  _create_device ident type_name payload)
                 = Raise (KeyError "placeIdentifier")).
    { intros [t Hty] H. rewrite (subscript_Some _ _ _ Hty). simpl.
      unfold _create_device. rewrite (subscript_None _ _ H). reflexivity. }
    assert (H3 : is_Some (payload !! "typeName") -> is_Some (payload !! "placeIdentifier") ->
                 payload !! "friendlyName" = None ->
                 (let* type_name := subscript payload "typeName" in
                  _create_device ident type_name payload)
                 = Raise (KeyError "friendlyName")).
    { intros [t Hty] [pl Hpl] H. rewrite (subscript_Some _ _ _ Hty). simpl.
      unfold _create_device.
      rewrite (subscript_Some _ _ _ Hpl), (subscript_None _ _ H). reflexivity. }
    split; [exact H1|]. split; [exact H2|]. split; [exact H3|].
    intros Habs.
    destruct (payload !! "typeName") as [t|] eqn:Hty.
    + destruct (payload !! "placeIdentifier") as [pl|] eqn:Hpl.
      * destruct Habs as [?|[?|Hf]]; try discriminate.
        exists "friendlyName". split; [apply H3; eauto|]. split; [exact Hf|].
        in_list.
      * exists "placeIdentifier". split; [apply H2; eauto|]. split; [exact Hpl|].
        in_list.
    + exists "typeName". split; [apply H1; reflexivity|]. split; [exact Hty|].
      in_list.
  - intros k msg arg i p. repeat split; discriminate.
Qed.

(** C5, as stated, fails: the Heater payload without a [properties] key
    raises [KeyError], while the same payload with an empty list goes on to
    the heater fallback and raises [UnsupportedDeviceError]. *)
Lemma absent_properties_counterexample :
  create_device heater_without_properties = Raise (KeyError "properties") /\
  create_device heater_with_empty_properties =
    Raise (UnsupportedDeviceError (UnrecognizedHeater []) (VStr "heater-1")
             heater_with_empty_properties) /\
  create_device heater_without_properties <>
    create_device heater_with_empty_properties.
Proof.
  assert (H1 : create_device heater_without_properties = Raise (KeyError "properties"))
    by (vm_compute; reflexivity).
  assert (H2 : create_device heater_with_empty_properties =
               Raise (UnsupportedDeviceError (UnrecognizedHeater []) (VStr "heater-1")
                        heater_with_empty_properties))
    by (vm_compute; reflexivity).
  split; [exact H1|]. split; [exact H2|]. rewrite H1, H2. discriminate.
Qed.

(** C5, amended: for every device payload routed to a property-reading
    variant (Heater, Blind, HumiditySensor), an absent [properties] key is
    not taken as an empty list: the resolver raises [KeyError] on the key,
    whereas with an empty list it goes on and fails with another error,
    never a [KeyError]. *)
Theorem absent_properties_raise_KeyError
    (payload : dict) (ident place friendly : value) (type_name : string) :
  payload !! "class" = Some (VStr "Device") ->
  payload !! "id" = Some ident ->
  truthy ident = true ->
  payload !! "typeName" = Some (VStr type_name) ->
  type_name ∈ ["Heater"; "Blind"; "HumiditySensor"] ->
  payload !! "placeIdentifier" = Some place ->
  payload !! "friendlyName" = Some friendly ->
  payload !! "properties" = None ->
  create_device payload = Raise (KeyError "properties")
  /\ exists e, create_device (<["properties" := VList []]> payload) = Raise e
               /\ forall k, e <> KeyError k.
Proof.
  intros Hclass Hid Ht Htype Hin Hplace Hfriendly Hprops.
  assert (Hcases : type_name = "Heater" \/ type_name = "Blind" \/
                   type_name = "HumiditySensor").
  { rewrite !elem_of_cons in Hin. rewrite elem_of_nil in Hin. tauto. }
  split.
  - rewrite (create_device_dispatch _ _ Hclass Hid Ht), (subscript_Some _ _ _ Htype).
    unfold bind at 1. unfold _create_device.
    rewrite (subscript_Some _ _ _ Hplace), (subscript_Some _ _ _ Hfriendly),
      (subscript_None _ _ Hprops).
    destruct Hcases as [-> | [-> | ->]]; reflexivity.
  - set (payload' := <["properties" := VList []]> payload).
    assert (Hget : forall k, k <> "properties" -> payload' !! k = payload !! k).
    { intros k Hk. unfold payload'. apply lookup_insert_ne. congruence. }
    assert (Hnew : payload' !! "properties" = Some (VList []))
      by apply lookup_insert_eq.
    rewrite <- Hget in Hclass, Hid, Htype, Hplace, Hfriendly by discriminate.
    rewrite (create_device_dispatch _ _ Hclass Hid Ht), (subscript_Some _ _ _ Htype).
    unfold bind at 1. unfold _create_device.
    rewrite (subscript_Some _ _ _ Hplace), (subscript_Some _ _ _ Hfriendly),
      (subscript_Some _ _ _ Hnew).
    destruct Hcases as [-> | [-> | ->]]; simpl.
    + unfold model_matches.
      destruct (get payload' "modelName") as [| | | |s| |]; simpl;
        try destruct (String.prefix _ s); simpl;
        eexists; (split; [reflexivity | discriminate]).
    + eexists; (split; [reflexivity | discriminate]).
    + eexists; (split; [reflexivity | discriminate]).
Qed.

(** ** Round trip: claim C9 *)

Lemma first_item_list key v items e :
  py_iter v = Ok items -> first_item key items e -> v = VList items.
Proof.
  intros Hv (before & after & -> & _ & _).
  assert (Hin : VDict e ∈ before ++ VDict e :: after)
    by (apply elem_of_app; right; apply list_elem_of_here).
  destruct v; simpl in Hv; try discriminate; injection Hv as Hv.
  - rewrite <- Hv in Hin. apply list_elem_of_fmap in Hin as (c & Hc & _). discriminate.
  - congruence.
  - rewrite <- Hv in Hin. apply list_elem_of_fmap in Hin as (c & Hc & _). discriminate.
Qed.

Lemma _get_prop_optional_inv v key dflt r :
  _get_prop_optional v key dflt = Ok r ->
  exists items, py_iter v = Ok items /\
    ((exists e, first_item key items e /\ r = default dflt (e !! "value")) \/
     (Forall (passed_over key) items /\ r = dflt)).
Proof.
  unfold _get_prop_optional, bind.
  destruct (py_iter v) as [items|]; [|discriminate].
  destruct (next_named items key) as [[e|]|] eqn:Hn; [| |discriminate].
  - apply next_named_Some_inv in Hn. intros H. exists items. split; [reflexivity|].
    left. exists e. split; [assumption|].
    destruct Hn as (_ & _ & _ & _ & He).
    rewrite (truthy_dict_lookup _ _ _ He) in H. unfold contains, get in H. simpl in H.
    destruct (e !! "value"); simpl in *; congruence.
  - apply next_named_None_inv in Hn. intros [= <-]. exists items. auto.
Qed.

Lemma _get_prop_inv v key r :
  _get_prop v key = Ok r ->
  exists items e, v = VList items /\ first_item key items e /\ e !! "value" = Some r.
Proof.
  unfold _get_prop, bind.
  destruct (_get_prop_optional v key VNone) as [val|] eqn:Hopt; [|discriminate].
  intros H. assert (val = r /\ r <> VNone) as [-> Hr].
  { destruct val; try (injection H as <-; split; [reflexivity|discriminate]).
    destruct (available_names v); discriminate. }
  apply _get_prop_optional_inv in Hopt as (items & Hv & [(e & He & Hval) | [_ ?]]);
    [|congruence].
  exists items, e. split; [eapply first_item_list; eassumption|]. split; [assumption|].
  destruct (e !! "value"); simpl in Hval; congruence.
Qed.

Lemma carried_required (payload : dict) v key r :
  payload !! "properties" = Some v -> _get_prop v key = Ok r -> carried payload key r.
Proof.
  intros Hp H. apply _get_prop_inv in H as (items & e & -> & He & Hr).
  exists items, e. auto.
Qed.

Lemma carried_optional (payload : dict) items key dflt r :
  payload !! "properties" = Some (VList items) ->
  _get_prop_optional (VList items) key dflt = Ok r -> carried_or payload key dflt r.
Proof.
  intros Hp H. apply _get_prop_optional_inv in H as (items' & [= <-] & H).
  destruct H as [(e & He & ->) | [Hall ->]].
  - destruct (e !! "value") as [w|] eqn:Hw; simpl.
    + left. exists items, e. auto.
    + right. split; [reflexivity|]. exists items. split; [assumption|]. right. eauto.
  - right. split; [reflexivity|]. exists items. auto.
Qed.

Lemma any_name_true_dict test items :
  any_name test items = Ok true -> exists d, VDict d ∈ items.
Proof.
  induction items as [|p items IH]; simpl; [discriminate|].
  destruct p; try discriminate. intros H.
  exists d. apply list_elem_of_here.
Qed.

Lemma any_named_true_list test v :
  any_named test v = Ok true -> exists items, v = VList items.
Proof.
  unfold any_named, bind. destruct (py_iter v) as [items|] eqn:Hv; [|discriminate].
  intros H. apply any_name_true_dict in H as (d & Hin).
  destruct v; simpl in Hv; try discriminate; injection Hv as Hv.
  - rewrite <- Hv in Hin. apply list_elem_of_fmap in Hin as (c & Hc & _). discriminate.
  - eauto.
  - rewrite <- Hv in Hin. apply list_elem_of_fmap in Hin as (c & Hc & _). discriminate.
Qed.

(** What a successful classification tells about the payload's head. *)
Lemma create_device_Ok_inv payload d :
  create_device payload = Ok d ->
  exists ident type_name place friendly,
    payload !! "class" = Some (VStr "Device") /\
    payload !! "id" = Some ident /\ truthy ident = true /\
    payload !! "typeName" = Some type_name /\
    payload !! "placeIdentifier" = Some place /\
    payload !! "friendlyName" = Some friendly /\
    _create_device ident type_name payload = Ok d.
Proof.
  unfold create_device, get.
  destruct (payload !! "class") as [cls|] eqn:Hc; simpl; [|discriminate].
  destruct (truthy cls); simpl; [|discriminate].
  destruct (payload !! "id") as [ident|] eqn:Hi; simpl; [|discriminate].
  destruct (truthy ident) eqn:Ht; simpl; [|discriminate].
  destruct (eq_str cls "Device") eqn:Hcls; simpl; [|discriminate].
  apply eq_str_true in Hcls as ->.
  unfold subscript at 1. destruct (payload !! "typeName") as [tn|] eqn:Htn; [|discriminate].
  unfold bind at 1. intros H. exists ident, tn.
  assert (Hfields : exists place friendly,
             payload !! "placeIdentifier" = Some place /\
             payload !! "friendlyName" = Some friendly).
  { unfold _create_device, subscript in H.
    destruct (payload !! "placeIdentifier") as [pl|]; [|discriminate].
    destruct (payload !! "friendlyName") as [fr|]; [|discriminate]. eauto. }
  destruct Hfields as (place & friendly & Hp & Hf).
  exists place, friendly. auto 10.
Qed.

(** C9: whenever classification succeeds, the entity holds the payload's
    values as they are: a device's identifier, friendly name, place
    identifier and manufacturer are the payload's [id], [friendlyName],
    [placeIdentifier] and [manufacturer] (null when absent), and each field
    of its variant is the value of the first property entry of that name
    (or the default of an optional one); a Heating holds the payload's
    [id], [name], [currentTemperature], [targetTemperature] and
    [windowOpen]; a Room holds the payload's [id] and [placeName]. *)
Theorem classification_round_trip (payload : dict) :
  (forall d, create_device payload = Ok d ->
     payload !! "id" = Some (device_identifier d) /\
     payload !! "friendlyName" = Some (device_friendly_name d) /\
     payload !! "placeIdentifier" = Some (device_place_identifier d) /\
     device_manufacturer d = get payload "manufacturer" /\
     match d with
     | Lamp _ _ _ _ | Switch _ _ _ _ => True
     | Blind _ _ _ _ level => carried payload "blindLevel" level
     | HumiditySensor _ _ _ _ temp humidity =>
         carried_or payload "currentEnvironmentTemperature" VNone temp /\
         carried payload "humidityLevel" humidity
     | RadiatorValve _ _ _ _ temp battery mode position =>
         carried_or payload "currentEnvironmentTemperature" VNone temp /\
         carried_or payload "batteryLevel" VNone battery /\
         carried_or payload "heatingMode" VNone mode /\
         carried_or payload "valvePosition" VNone position
     | InFloorValve _ _ _ _ temp setting status =>
         carried_or payload "currentEnvironmentTemperature" VNone temp /\
         carried payload "heatingTemperatureSetting" setting /\
         carried_or payload "deviceStatus" (VStr "UNKNOWN") status
     end)
  /\ (forall h, create_heating payload = Ok h ->
        payload !! "id" = Some (heating_identifier h) /\
        payload !! "name" = Some (heating_name h) /\
        heating_current_temperature h = get payload "currentTemperature" /\
        payload !! "targetTemperature" = Some (heating_target_temperature h) /\
        heating_window_open h = get payload "windowOpen")
  /\ (forall r, create_room payload = Ok r ->
        payload !! "id" = Some (room_identifier r) /\
        payload !! "placeName" = Some (room_name r)).
Proof.
  split; [|split].
  - intros d H.
    apply create_device_Ok_inv in H
      as (ident & tn & place & friendly & _ & Hi & _ & _ & Hp & Hf & H).
    unfold _create_device in H.
    rewrite (subscript_Some _ _ _ Hp), (subscript_Some _ _ _ Hf) in H.
    unfold bind at 1 2 in H.
    destruct (eq_str tn "Lamp"); [injection H as <-; simpl; auto 10|].
    destruct (eq_str tn "TwoChannelRockerSwitch"); [injection H as <-; simpl; auto 10|].
    unfold subscript in H.
    destruct (eq_str tn "Heater"); [|destruct (eq_str tn "Blind");
                                     [|destruct (eq_str tn "HumiditySensor");
                                       [|discriminate]]];
      destruct (payload !! "properties") as [v|] eqn:Hv; try discriminate;
      unfold bind at 1 in H.
    + (* Heater *)
      destruct (_get_prop_optional v "currentEnvironmentTemperature" VNone)
        as [temp|] eqn:Htemp; [|discriminate]; unfold bind at 1 in H.
      assert (Hsetpoint : forall r,
        (let* setting := _get_prop v "heatingTemperatureSetting" in
         let* status := _get_prop_optional v "deviceStatus" (VStr "UNKNOWN") in
         Ok (InFloorValve ident friendly place (get payload "manufacturer")
               temp setting status)) = Ok r ->
        payload !! "id" = Some (device_identifier r) /\
        payload !! "friendlyName" = Some (device_friendly_name r) /\
        payload !! "placeIdentifier" = Some (device_place_identifier r) /\
        device_manufacturer r = get payload "manufacturer" /\
        match r with
        | InFloorValve _ _ _ _ temp setting status =>
            carried_or payload "currentEnvironmentTemperature" VNone temp /\
            carried payload "heatingTemperatureSetting" setting /\
            carried_or payload "deviceStatus" (VStr "UNKNOWN") status
        | _ => False
        end).
      { intros r Hr. unfold bind at 1 in Hr.
        destruct (_get_prop v "heatingTemperatureSetting") as [setting|] eqn:Hs;
          [|discriminate].
        unfold bind at 1 in Hr.
        destruct (_get_prop_optional v "deviceStatus" (VStr "UNKNOWN"))
          as [status|] eqn:Hst; [|discriminate].
        injection Hr as <-. simpl.
        pose proof (carried_required _ _ _ _ Hv Hs) as Hc.
        destruct (_get_prop_inv _ _ _ Hs) as (items & _ & -> & _).
        repeat split; try assumption; eapply carried_optional; eassumption. }
      destruct (model_matches (get payload "modelName")) as [[|]|]; [| |discriminate];
        unfold bind at 1 in H.
      * destruct (Hsetpoint d H) as (? & ? & ? & ? & Hd).
        destruct d; try contradiction. auto 10.
      * destruct (any_named _ v) as [knx|]; [|discriminate]. unfold bind at 1 in H.
        destruct (any_named radiator_name v) as [[|]|] eqn:Hrad; [| |discriminate];
          unfold bind at 1 in H.
        -- destruct (any_named_true_list _ _ Hrad) as (items & ->).
           destruct (_get_prop_optional _ "batteryLevel" VNone)
             as [battery|] eqn:Hb; [|discriminate]; unfold bind at 1 in H.
           destruct (_get_prop_optional _ "heatingMode" VNone)
             as [mode|] eqn:Hm; [|discriminate]; unfold bind at 1 in H.
           destruct (_get_prop_optional _ "valvePosition" VNone)
             as [position|] eqn:Hpos; [|discriminate]; unfold bind at 1 in H.
           injection H as <-. simpl.
           repeat split; try assumption; eapply carried_optional; eassumption.
        -- destruct knx.
           ++ destruct (Hsetpoint d H) as (? & ? & ? & ? & Hd).
              destruct d; try contradiction. auto 10.
           ++ destruct (available_names v); discriminate.
    + (* Blind *)
      destruct (_get_prop v "blindLevel") as [level|] eqn:Hl; [|discriminate].
      injection H as <-. simpl.
      repeat split; try assumption. eapply carried_required; eassumption.
    + (* HumiditySensor *)
      destruct (_get_prop_optional v "currentEnvironmentTemperature" VNone)
        as [temp|] eqn:Htemp; [|discriminate]; unfold bind at 1 in H.
      destruct (_get_prop v "humidityLevel") as [humidity|] eqn:Hh; [|discriminate].
      injection H as <-. simpl.
      pose proof (carried_required _ _ _ _ Hv Hh) as Hc.
      destruct (_get_prop_inv _ _ _ Hh) as (items & _ & -> & _).
      repeat split; try assumption. eapply carried_optional; eassumption.
  - intros h. unfold create_heating, subscript, bind.
    destruct (payload !! "id"); [|discriminate].
    destruct (payload !! "name"); [|discriminate].
    destruct (payload !! "targetTemperature"); [|discriminate].
    intros [= <-]. simpl. auto.
  - intros r. unfold create_room, subscript, bind, get.
    destruct (payload !! "class") as [cls|]; simpl; [|discriminate].
    destruct (truthy cls); simpl; [|discriminate].
    destruct (payload !! "id") as [ident|]; simpl; [|discriminate].
    destruct (truthy ident); simpl; [|discriminate].
    destruct (eq_str cls "Room"); simpl; [|discriminate].
    destruct (payload !! "placeName"); [|discriminate].
    intros [= <-]. simpl. auto.
Qed.

(** ** The error contract: claim C4 *)

(** C4, as stated, fails twice. A device payload without [typeName] fails
    with a [KeyError], which is none of the four kinds. And the missing-field
    failure of a payload without class and the property-not-found failure of
    a Blind without [blindLevel] are both a [ValueError]: an [except] clause
    cannot tell them apart, only the message can. *)
Lemma error_kinds_counterexample :
  (create_device device_without_type_name = Raise (KeyError "typeName") /\
   kind_of (KeyError "typeName") = None)
  /\ (create_device payload_without_class =
        Raise (ValueError (Literal "Payload missing class")) /\
      create_device blind_without_level =
        Raise (ValueError (FailedToFind "blindLevel" [])) /\
      kind_of (ValueError (Literal "Payload missing class")) = Some MissingFieldError /\
      kind_of (ValueError (FailedToFind "blindLevel" [])) = Some PropertyNotFoundError /\
      class_of (ValueError (Literal "Payload missing class")) =
        class_of (ValueError (FailedToFind "blindLevel" []))).
Proof.
  repeat split; vm_compute; reflexivity.
Qed.

(** ** The theorems at concrete payloads *)

Ltac by_evaluation := vm_compute; reflexivity.

(** C1 at a Heater with the model prefix, a setpoint and a battery level. *)
Lemma model_prefix_witness :
  create_device prefix_heater =
    Ok (InFloorValve (VStr "heater-1") (VStr "Heizung") (VStr "room-1") VNone
          VNone (VInt 21) (VStr "UNKNOWN")).
Proof.
  apply (proj1 (proj2 (model_prefix_gives_in_floor_valve
                         prefix_heater (VStr "heater-1") (VStr "Heizung") (VStr "room-1")
                         [setpoint_entry; battery_entry]
                         ltac:(by_evaluation) ltac:(by_evaluation) ltac:(by_evaluation)
                         ltac:(by_evaluation) ltac:(by_evaluation) ltac:(by_evaluation)
                         ltac:(by_evaluation)
                         "38de6001c3ad-XYZ" ltac:(by_evaluation) ltac:(by_evaluation)))
           setpoint_entry (VInt 21)).
  - exists [], [battery_entry].
    split; [reflexivity|]. split; [constructor|by_evaluation].
  - by_evaluation.
  - discriminate.
Defined.

(** C2 at a Heater without model name, with a setpoint and a valve position. *)
Lemma radiator_properties_witness :
  create_device radiator_heater =
    Ok (RadiatorValve (VStr "heater-2") (VStr "Heizung") (VStr "room-1") VNone
          VNone VNone VNone (VInt 30)).
Proof.
  apply (proj1 (radiator_properties_give_radiator_valve
                  radiator_heater (VStr "heater-2") (VStr "Heizung") (VStr "room-1")
                  [setpoint_entry; valve_entry]
                  ltac:(by_evaluation) ltac:(by_evaluation) ltac:(by_evaluation)
                  ltac:(by_evaluation) ltac:(by_evaluation) ltac:(by_evaluation)
                  ltac:(by_evaluation) ltac:(by_evaluation)
                  ltac:(apply Exists_cons_tl, Exists_cons_hd; right; left; by_evaluation))).
Defined.

(** C3 at a list with two entries named [blindLevel]: the first one is
    returned. *)
Lemma required_lookup_witness :
  _get_prop (props [unrelated_entry; blind_entry; second_blind_entry]) "blindLevel"
  = Ok (VInt 40).
Proof.
  apply (proj1 (proj2 (required_lookup_fails_iff
                         [unrelated_entry; blind_entry; second_blind_entry] "blindLevel"))
           blind_entry (VInt 40)).
  - exists [unrelated_entry], [second_blind_entry].
    split; [reflexivity|]. split; [|by_evaluation].
    constructor; [discriminate|constructor].
  - by_evaluation.
  - discriminate.
Defined.

(** C5 at a Blind payload without a [properties] key. *)
Lemma absent_properties_witness :
  create_device blind_without_properties = Raise (KeyError "properties").
Proof.
  apply (proj1 (absent_properties_raise_KeyError
                  blind_without_properties (VStr "blind-1") (VStr "room-1") (VStr "Rollo")
                  "Blind"
                  ltac:(by_evaluation) ltac:(by_evaluation) ltac:(by_evaluation)
                  ltac:(by_evaluation) ltac:(in_list) ltac:(by_evaluation)
                  ltac:(by_evaluation) ltac:(by_evaluation))).
Defined.

(** C6 at a list with a second [blindLevel] entry and an item that is no
    dictionary after the first. *)
Lemma lookup_first_match_witness :
  _get_prop_optional
    (VList [VDict unrelated_entry; VDict blind_entry; VDict second_blind_entry; VInt 7])
    "blindLevel" VNone
  = Ok (VInt 40).
Proof.
  apply (proj1 (lookup_first_match [unrelated_entry] blind_entry
                  [VDict second_blind_entry; VInt 7] "blindLevel" VNone
                  ltac:(constructor; [discriminate|constructor])
                  ltac:(by_evaluation))).
Defined.

(** C7 at a Heater whose only property is [signalStrength]. *)
Lemma unrecognized_heater_witness :
  create_device unknown_heater =
    Raise (UnsupportedDeviceError (UnrecognizedHeater [VStr "signalStrength"])
             (VStr "heater-3") unknown_heater).
Proof.
  apply (unrecognized_heater_is_unsupported
           unknown_heater (VStr "heater-3") (VStr "Heizung") (VStr "room-1")
           [unrelated_entry]
           ltac:(by_evaluation) ltac:(by_evaluation) ltac:(by_evaluation)
           ltac:(by_evaluation) ltac:(by_evaluation) ltac:(by_evaluation)
           ltac:(by_evaluation) ltac:(by_evaluation)).
  constructor; [|constructor]. split.
  - intros [H | [H | H]]; discriminate.
  - discriminate.
Defined.

(** C8 at a Room payload. *)
Lemma room_factory_witness :
  create_room room_payload = Ok (mkRoom (VStr "room-1") (VStr "Flur")).
Proof.
  apply (proj1 (room_factory room_payload) (VStr "room-1") (VStr "Flur"));
    by_evaluation.
Defined.

(** C9 at a Blind payload: the level of the entity is the one of the first
    [blindLevel] entry. *)
Lemma classification_round_trip_witness :
  carried blind_payload "blindLevel" (VInt 40).
Proof.
  apply (proj2 (proj2 (proj2 (proj2
           (proj1 (classification_round_trip blind_payload)
              (Blind (VStr "blind-1") (VStr "Rollo") (VStr "room-1") VNone (VInt 40))
              ltac:(by_evaluation)))))).
Defined.

(** C10 at a Room payload without [placeName]. *)
Lemma absent_fields_witness :
  create_room room_without_place_name = Raise (KeyError "placeName").
Proof.
  apply (proj1 (absent_fields_raise_KeyError room_without_place_name (VStr "room-1")
                  ltac:(by_evaluation) ltac:(by_evaluation)));
    by_evaluation.
Defined.

(** ** Further properties of the device factory *)

Section Resolver.
Variables (payload : dict) (ident place friendly : value).
Hypothesis Hclass : payload !! "class" = Some (VStr "Device").
Hypothesis Hid : payload !! "id" = Some ident.
Hypothesis Hnonempty : truthy ident = true.
Hypothesis Hplace : payload !! "placeIdentifier" = Some place.
Hypothesis Hfriendly : payload !! "friendlyName" = Some friendly.

(** The payload's head settled, what is left is the chain of tests on the
    type name. *)
Lemma create_device_resolver type_name :
  payload !! "typeName" = Some type_name ->
  create_device payload = _create_device ident type_name payload.
Proof.
  intros Htype. rewrite (create_device_dispatch _ _ Hclass Hid Hnonempty).
  rewrite (subscript_Some _ _ _ Htype). reflexivity.
Qed.

Lemma _create_device_head type_name :
  _create_device ident type_name payload =
  if eq_str type_name "Lamp" then
    Ok (Lamp ident friendly place (get payload "manufacturer"))
  else if eq_str type_name "TwoChannelRockerSwitch" then
    Ok (Switch ident friendly place (get payload "manufacturer"))
  else if eq_str type_name "Heater" || eq_str type_name "Blind"
          || eq_str type_name "HumiditySensor" then
    _create_device ident type_name payload
  else Raise (UnsupportedDeviceError (Plain type_name) ident payload).
Proof.
  unfold _create_device.
  rewrite (subscript_Some _ _ _ Hplace), (subscript_Some _ _ _ Hfriendly).
  unfold bind at 1 2 4 5.
  destruct (eq_str type_name "Lamp"); [reflexivity|].
  destruct (eq_str type_name "TwoChannelRockerSwitch"); [reflexivity|].
  destruct (eq_str type_name "Heater"); [reflexivity|].
  destruct (eq_str type_name "Blind"); [reflexivity|].
  destruct (eq_str type_name "HumiditySensor"); reflexivity.
Qed.

(** X1: a Lamp and a TwoChannelRockerSwitch are built from the head of the
    payload alone: whatever [properties] and [modelName] are, absent or of
    any type, the factory returns the Lamp, or the Switch, of the payload's
    id, friendly name, place identifier and manufacturer. *)
Theorem lamp_and_switch_need_no_properties :
  (payload !! "typeName" = Some (VStr "Lamp") ->
     create_device payload = Ok (Lamp ident friendly place (get payload "manufacturer")))
  /\ (payload !! "typeName" = Some (VStr "TwoChannelRockerSwitch") ->
     create_device payload = Ok (Switch ident friendly place (get payload "manufacturer"))).
Proof.
  split; intros Htype; rewrite (create_device_resolver _ Htype), _create_device_head;
    reflexivity.
Qed.

(** X2: a type name that is not exactly one of the five strings the
    resolver knows (another string, the same word in another case, a value
    that is no string) raises [UnsupportedDeviceError] with the type name,
    the identifier and the raw payload; the properties are not looked at. *)
Theorem unknown_type_name_is_unsupported (type_name : value) :
  payload !! "typeName" = Some type_name ->
  (forall s, s ∈ ["Lamp"; "TwoChannelRockerSwitch"; "Heater"; "Blind"; "HumiditySensor"] ->
             type_name <> VStr s) ->
  create_device payload = Raise (UnsupportedDeviceError (Plain type_name) ident payload).
Proof.
  intros Htype Hnot. rewrite (create_device_resolver _ Htype), _create_device_head.
  assert (Hf : forall s,
             s ∈ ["Lamp"; "TwoChannelRockerSwitch"; "Heater"; "Blind"; "HumiditySensor"] ->
             eq_str type_name s = false).
  { intros s Hs. apply eq_str_false, Hnot, Hs. }
  rewrite !Hf by in_list. reflexivity.
Qed.
End Resolver.

Lemma _get_prop_no_usable_value key l :
  no_usable_value key l ->
  _get_prop (props l) key = Raise (ValueError (FailedToFind key (names l))).
Proof.
  intros H. apply lookup_optional_None in H. rewrite _get_prop_props, H. reflexivity.
Qed.

Section PropertyReaders.
Variables (payload : dict) (ident place friendly : value) (l : list dict).
Hypothesis Hclass : payload !! "class" = Some (VStr "Device").
Hypothesis Hid : payload !! "id" = Some ident.
Hypothesis Hnonempty : truthy ident = true.
Hypothesis Hplace : payload !! "placeIdentifier" = Some place.
Hypothesis Hfriendly : payload !! "friendlyName" = Some friendly.
Hypothesis Hprops : payload !! "properties" = Some (props l).

Lemma create_device_blind :
  payload !! "typeName" = Some (VStr "Blind") ->
  create_device payload =
  let* blind_level := _get_prop (props l) "blindLevel" in
  Ok (Blind ident friendly place (get payload "manufacturer") blind_level).
Proof.
  intros Htype.
  rewrite (create_device_resolver _ _ Hclass Hid Hnonempty _ Htype).
  unfold _create_device.
  rewrite (subscript_Some _ _ _ Hplace), (subscript_Some _ _ _ Hfriendly),
    (subscript_Some _ _ _ Hprops).
  reflexivity.
Qed.

Lemma create_device_humidity_sensor :
  payload !! "typeName" = Some (VStr "HumiditySensor") ->
  create_device payload =
  let* humidity_level := _get_prop (props l) "humidityLevel" in
  Ok (HumiditySensor ident friendly place (get payload "manufacturer")
        (lookup_optional l "currentEnvironmentTemperature" VNone) humidity_level).
Proof.
  intros Htype.
  rewrite (create_device_resolver _ _ Hclass Hid Hnonempty _ Htype).
  unfold _create_device.
  rewrite (subscript_Some _ _ _ Hplace), (subscript_Some _ _ _ Hfriendly),
    (subscript_Some _ _ _ Hprops).
  unfold bind at 1 2 3. simpl eq_str. cbv iota. unfold bind at 1.
  rewrite _get_prop_optional_props. reflexivity.
Qed.

(** X3: a Blind payload yields the Blind whose level is the value of the
    first entry named [blindLevel], when that value is not null; when there
    is no such entry, or the first one has no value or a null one, it raises
    the [ValueError] that lists the names of all the entries. *)
Theorem blind_reads_first_blind_level :
  payload !! "typeName" = Some (VStr "Blind") ->
  (forall e v, first_named "blindLevel" l e -> e !! "value" = Some v -> v <> VNone ->
     create_device payload =
       Ok (Blind ident friendly place (get payload "manufacturer") v))
  /\ (no_usable_value "blindLevel" l ->
      create_device payload = Raise (ValueError (FailedToFind "blindLevel" (names l)))).
Proof.
  intros Htype. rewrite (create_device_blind Htype). split.
  - intros e v He Hv Hn. rewrite (_get_prop_value _ _ e v He Hv Hn). reflexivity.
  - intros H. rewrite (_get_prop_no_usable_value _ _ H). reflexivity.
Qed.

(** X4: a HumiditySensor payload yields the sensor whose humidity is the
    value of the first entry named [humidityLevel], when that value is not
    null, and whose temperature is the optional
    [currentEnvironmentTemperature] (null by default); without a usable
    [humidityLevel] it raises the [ValueError] that lists the names of all
    the entries, whether or not a temperature is there. *)
Theorem humidity_sensor_reads_first_humidity_level :
  payload !! "typeName" = Some (VStr "HumiditySensor") ->
  (forall e v, first_named "humidityLevel" l e -> e !! "value" = Some v -> v <> VNone ->
     create_device payload =
       Ok (HumiditySensor ident friendly place (get payload "manufacturer")
             (lookup_optional l "currentEnvironmentTemperature" VNone) v))
  /\ (no_usable_value "humidityLevel" l ->
      create_device payload =
        Raise (ValueError (FailedToFind "humidityLevel" (names l)))).
Proof.
  intros Htype. rewrite (create_device_humidity_sensor Htype). split.
  - intros e v He Hv Hn. rewrite (_get_prop_value _ _ e v He Hv Hn). reflexivity.
  - intros H. rewrite (_get_prop_no_usable_value _ _ H). reflexivity.
Qed.

Lemma heater_setpoint_path :
  payload !! "typeName" = Some (VStr "Heater") ->
  model_matches (get payload "modelName") = Ok false ->
  Forall (fun e => ~ radiator_entry e) l ->
  Exists (named "heatingTemperatureSetting") l ->
  create_device payload = in_floor_valve_steps payload ident friendly place l.
Proof.
  intros Htype Hmodel Hrad Hknx.
  rewrite (create_device_heater payload ident friendly place l) by assumption.
  rewrite Hmodel. simpl.
  destruct (existsb (fun e => radiator_name (get e "name")) l) eqn:Hr.
  { apply existsb_radiator, Exists_exists in Hr as (e & Hin & He).
    rewrite Forall_forall in Hrad. destruct (Hrad e Hin He). }
  apply existsb_named in Hknx. rewrite Hknx. reflexivity.
Qed.

Lemma first_named_Exists key e : first_named key l e -> Exists (named key) l.
Proof.
  intros (l1 & l2 & -> & _ & He). apply Exists_app. right. apply Exists_cons_hd. exact He.
Qed.

(** X5: a Heater payload whose model name does not match the prefix, with
    no entry named [batteryLevel], [valvePosition] or [heatingMode], and
    whose first entry named [heatingTemperatureSetting] carries a value that
    is not null, yields the InFloorValve of that setpoint; its status is the
    optional [deviceStatus], and ["UNKNOWN"] when no entry has that name. *)
Theorem setpoint_alone_gives_in_floor_valve (e : dict) (v : value) :
  payload !! "typeName" = Some (VStr "Heater") ->
  model_matches (get payload "modelName") = Ok false ->
  Forall (fun e => ~ radiator_entry e) l ->
  first_named "heatingTemperatureSetting" l e ->
  e !! "value" = Some v -> v <> VNone ->
  create_device payload =
    Ok (InFloorValve ident friendly place (get payload "manufacturer")
          (lookup_optional l "currentEnvironmentTemperature" VNone) v
          (lookup_optional l "deviceStatus" (VStr "UNKNOWN")))
  /\ (Forall (fun e => ~ named "deviceStatus" e) l ->
      create_device payload =
        Ok (InFloorValve ident friendly place (get payload "manufacturer")
              (lookup_optional l "currentEnvironmentTemperature" VNone) v
              (VStr "UNKNOWN"))).
Proof.
  intros Htype Hmodel Hrad He Hv Hn.
  rewrite (heater_setpoint_path Htype Hmodel Hrad (first_named_Exists _ _ He)).
  unfold in_floor_valve_steps. rewrite (_get_prop_value _ _ e v He Hv Hn).
  split; [reflexivity|].
  intros Habs. rewrite (lookup_optional_absent _ _ _ Habs). reflexivity.
Qed.

(** X6: on the same path, when the first entry named
    [heatingTemperatureSetting] has no value or a null one, the presence
    test has passed but the required lookup fails: the factory raises the
    property-not-found [ValueError], not [UnsupportedDeviceError]. *)
Theorem setpoint_without_value_is_not_found (e : dict) :
  payload !! "typeName" = Some (VStr "Heater") ->
  model_matches (get payload "modelName") = Ok false ->
  Forall (fun e => ~ radiator_entry e) l ->
  first_named "heatingTemperatureSetting" l e ->
  e !! "value" = None \/ e !! "value" = Some VNone ->
  create_device payload =
    Raise (ValueError (FailedToFind "heatingTemperatureSetting" (names l))).
Proof.
  intros Htype Hmodel Hrad He Hv.
  rewrite (heater_setpoint_path Htype Hmodel Hrad (first_named_Exists _ _ He)).
  unfold in_floor_valve_steps.
  rewrite (_get_prop_no_usable_value "heatingTemperatureSetting" l)
    by (right; exists e; auto).
  reflexivity.
Qed.
End PropertyReaders.

(** X7: the device factory checks the class, then the id, before anything
    else: a class that is absent or empty raises [ValueError] on the class,
    whatever the rest of the payload; a non-empty class with an absent or
    empty id raises [ValueError] on the id; a non-empty class other than
    ["Device"] with a non-empty id raises [NotImplementedError] carrying the
    class. *)
Theorem device_factory_checks_class_then_id (payload : dict) :
  (missing payload "class" ->
     create_device payload = Raise (ValueError (Literal "Payload missing class")))
  /\ (~ missing payload "class" -> missing payload "id" ->
        create_device payload = Raise (ValueError (Literal "Payload missing id")))
  /\ (forall cls ident,
        payload !! "class" = Some cls -> truthy cls = true -> cls <> VStr "Device" ->
        payload !! "id" = Some ident -> truthy ident = true ->
        create_device payload = Raise (NotImplementedError (UnsupportedDeviceClass cls))).
Proof.
  unfold create_device, missing. repeat split.
  - intros ->. reflexivity.
  - intros Hc ->. destruct (truthy (get payload "class")); [reflexivity|congruence].
  - intros cls ident Hc Htc Hne Hi Ht.
    rewrite (get_Some _ _ _ Hc), (get_Some _ _ _ Hi), Ht, Htc.
    apply eq_str_false in Hne. rewrite Hne. reflexivity.
Qed.

Lemma create_room_Ok_inv payload r :
  create_room payload = Ok r ->
  payload !! "class" = Some (VStr "Room") /\
  payload !! "id" = Some (room_identifier r) /\ truthy (room_identifier r) = true /\
  payload !! "placeName" = Some (room_name r).
Proof.
  unfold create_room, subscript, bind, get.
  destruct (payload !! "class") as [cls|]; simpl; [|discriminate].
  destruct (truthy cls); simpl; [|discriminate].
  destruct (payload !! "id") as [ident|]; simpl; [|discriminate].
  destruct (truthy ident) eqn:Ht; simpl; [|discriminate].
  destruct (eq_str cls "Room") eqn:Hcls; simpl; [|discriminate].
  apply eq_str_true in Hcls as ->.
  destruct (payload !! "placeName"); [|discriminate].
  intros [= <-]. simpl. auto.
Qed.

(** X8: no payload is accepted by both factories: one on which the room
    factory succeeds makes the device factory raise [NotImplementedError]
    on the class ["Room"], and one on which the device factory succeeds
    makes the room factory raise it on the class ["Device"]. *)
Theorem factories_are_exclusive (payload : dict) :
  (forall r, create_room payload = Ok r ->
     create_device payload =
       Raise (NotImplementedError (UnsupportedDeviceClass (VStr "Room"))))
  /\ (forall d, create_device payload = Ok d ->
     create_room payload =
       Raise (NotImplementedError (UnsupportedRoomClass (VStr "Device")))).
Proof.
  split.
  - intros r H. apply create_room_Ok_inv in H as (Hc & Hi & Ht & _).
    unfold create_device. rewrite (get_Some _ _ _ Hc), (get_Some _ _ _ Hi), Ht.
    reflexivity.
  - intros d H.
    apply create_device_Ok_inv in H as (ident & _ & _ & _ & Hc & Hi & Ht & _).
    unfold create_room. rewrite (get_Some _ _ _ Hc), (get_Some _ _ _ Hi), Ht.
    reflexivity.
Qed.

Lemma _get_prop_Ok_not_None v key r : _get_prop v key = Ok r -> r <> VNone.
Proof.
  unfold _get_prop, bind. destruct (_get_prop_optional v key VNone) as [val|];
    [|discriminate].
  destruct val; try (intros [= <-]; discriminate).
  destruct (available_names v); discriminate.
Qed.

Lemma _create_device_Ok_fields ident type_name payload d :
  _create_device ident type_name payload = Ok d ->
  device_identifier d = ident /\ required_field d <> Some VNone.
Proof.
  unfold _create_device. unfold subscript at 1 2.
  destruct (payload !! "placeIdentifier") as [place|]; [|discriminate].
  destruct (payload !! "friendlyName") as [friendly|]; [|discriminate].
  unfold bind at 1 2.
  destruct (eq_str type_name "Lamp"); [intros [= <-]; split; [reflexivity|discriminate]|].
  destruct (eq_str type_name "TwoChannelRockerSwitch");
    [intros [= <-]; split; [reflexivity|discriminate]|].
  unfold subscript.
  destruct (payload !! "properties") as [v|]; cycle 1.
  { destruct (eq_str type_name "Heater"); [discriminate|].
    destruct (eq_str type_name "Blind"); [discriminate|].
    destruct (eq_str type_name "HumiditySensor"); discriminate. }
  assert (Hsetpoint : forall temp r,
    (let* setting := _get_prop v "heatingTemperatureSetting" in
     let* status := _get_prop_optional v "deviceStatus" (VStr "UNKNOWN") in
     Ok (InFloorValve ident friendly place (get payload "manufacturer")
           temp setting status)) = Ok r ->
    device_identifier r = ident /\ required_field r <> Some VNone).
  { intros temp r. unfold bind at 1.
    destruct (_get_prop v "heatingTemperatureSetting") as [setting|] eqn:Hs;
      [|discriminate].
    unfold bind at 1.
    destruct (_get_prop_optional v "deviceStatus" (VStr "UNKNOWN")); [|discriminate].
    intros [= <-]. split; [reflexivity|]. simpl. intros [= ->].
    exact (_get_prop_Ok_not_None _ _ _ Hs eq_refl). }
  destruct (eq_str type_name "Heater"); [|destruct (eq_str type_name "Blind");
                                          [|destruct (eq_str type_name "HumiditySensor");
                                            [|discriminate]]];
    unfold bind at 1.
  - destruct (_get_prop_optional v "currentEnvironmentTemperature" VNone) as [temp|];
      [|discriminate].
    unfold bind at 1.
    destruct (model_matches (get payload "modelName")) as [[|]|]; [| |discriminate];
      unfold bind at 1; [apply Hsetpoint|].
    destruct (any_named (fun n => eq_str n "heatingTemperatureSetting") v) as [knx|];
      [|discriminate].
    unfold bind at 1.
    destruct (any_named radiator_name v) as [[|]|]; [| |discriminate]; unfold bind at 1.
    + destruct (_get_prop_optional v "batteryLevel" VNone); [|discriminate].
      unfold bind at 1.
      destruct (_get_prop_optional v "heatingMode" VNone); [|discriminate].
      unfold bind at 1.
      destruct (_get_prop_optional v "valvePosition" VNone); [|discriminate].
      intros [= <-]. split; [reflexivity|discriminate].
    + destruct knx; [apply Hsetpoint|].
      destruct (available_names v); discriminate.
  - destruct (_get_prop v "blindLevel") as [level|] eqn:Hl; [|discriminate].
    intros [= <-]. split; [reflexivity|]. simpl. intros [= ->].
    exact (_get_prop_Ok_not_None _ _ _ Hl eq_refl).
  - destruct (_get_prop_optional v "currentEnvironmentTemperature" VNone) as [temp|];
      [|discriminate].
    unfold bind at 1.
    destruct (_get_prop v "humidityLevel") as [humidity|] eqn:Hh; [|discriminate].
    intros [= <-]. split; [reflexivity|]. simpl. intros [= ->].
    exact (_get_prop_Ok_not_None _ _ _ Hh eq_refl).
Qed.

(** X9: what the factories return is identified and complete: the
    identifier of a Device or a Room that was created is never absent, null
    or empty, and the level of a Blind, the humidity of a HumiditySensor and
    the setpoint of an InFloorValve are never null. *)
Theorem created_entities_are_identified (payload : dict) :
  (forall d, create_device payload = Ok d ->
     truthy (device_identifier d) = true /\ required_field d <> Some VNone)
  /\ (forall r, create_room payload = Ok r -> truthy (room_identifier r) = true).
Proof.
  split.
  - intros d H.
    apply create_device_Ok_inv in H as (ident & tn & _ & _ & _ & _ & Ht & _ & _ & _ & H).
    apply _create_device_Ok_fields in H as [-> Hreq]. auto.
  - intros r H. apply create_room_Ok_inv in H as (_ & _ & Ht & _). exact Ht.
Qed.

(** X10: the heating factory reads [id], [name] and [targetTemperature] by
    subscript, in this order, and nothing is validated: with the three keys
    present it returns the Heating of their values, whatever they are, with
    [currentTemperature] and [windowOpen] null when absent; otherwise it
    raises [KeyError] on the first of the three that is absent, and it
    raises nothing else. *)
Theorem heating_factory (payload : dict) :
  (forall i n t,
      payload !! "id" = Some i -> payload !! "name" = Some n ->
      payload !! "targetTemperature" = Some t ->
      create_heating payload =
        Ok (mkHeating i n (get payload "currentTemperature") t
              (get payload "windowOpen")))
  /\ (payload !! "id" = None -> create_heating payload = Raise (KeyError "id"))
  /\ (is_Some (payload !! "id") -> payload !! "name" = None ->
        create_heating payload = Raise (KeyError "name"))
  /\ (is_Some (payload !! "id") -> is_Some (payload !! "name") ->
      payload !! "targetTemperature" = None ->
        create_heating payload = Raise (KeyError "targetTemperature"))
  /\ (forall e, create_heating payload = Raise e ->
        exists k, e = KeyError k /\ payload !! k = None /\
                  k ∈ ["id"; "name"; "targetTemperature"]).
Proof.
  unfold create_heating, subscript, bind. repeat split.
  - intros i n t -> -> ->. reflexivity.
  - intros ->. reflexivity.
  - intros [i ->] ->. reflexivity.
  - intros [i ->] [n ->] ->. reflexivity.
  - intros e.
    destruct (payload !! "id") eqn:Hi;
      [|intros [= <-]; exists "id"; split; [reflexivity|split; [assumption|in_list]]].
    destruct (payload !! "name") eqn:Hn;
      [|intros [= <-]; exists "name"; split; [reflexivity|split; [assumption|in_list]]].
    destruct (payload !! "targetTemperature") eqn:Htt; [discriminate|].
    intros [= <-]. exists "targetTemperature".
    split; [reflexivity|split; [assumption|in_list]].
Qed.

(** ** Property lists of the wrong type *)

Lemma py_iter_not_iterable v : not_iterable v -> py_iter v = Raise TypeError.
Proof. intros [-> | [[b ->] | [[n ->] | [f ->]]]]; reflexivity. Qed.

Lemma _get_prop_optional_not_iterable v key dflt :
  not_iterable v -> _get_prop_optional v key dflt = Raise TypeError.
Proof.
  intros H. unfold _get_prop_optional. rewrite (py_iter_not_iterable _ H). reflexivity.
Qed.

Lemma _get_prop_not_iterable v key :
  not_iterable v -> _get_prop v key = Raise TypeError.
Proof.
  intros H. unfold _get_prop. rewrite (_get_prop_optional_not_iterable _ _ _ H).
  reflexivity.
Qed.

(** X11: when [properties] is present but is null, a boolean or a number,
    the Heater, Blind and HumiditySensor branches raise [TypeError] at their
    first lookup: neither the [KeyError] of an absent key nor the
    [ValueError] of an absent property. *)
Theorem properties_not_iterable_raise_TypeError
    (payload : dict) (ident place friendly v : value) (type_name : string) :
  payload !! "class" = Some (VStr "Device") ->
  payload !! "id" = Some ident ->
  truthy ident = true ->
  payload !! "typeName" = Some (VStr type_name) ->
  type_name ∈ ["Heater"; "Blind"; "HumiditySensor"] ->
  payload !! "placeIdentifier" = Some place ->
  payload !! "friendlyName" = Some friendly ->
  payload !! "properties" = Some v ->
  not_iterable v ->
  create_device payload = Raise TypeError.
Proof.
  intros Hclass Hid Ht Htype Hin Hplace Hfriendly Hprops Hv.
  assert (Hcases : type_name = "Heater" \/ type_name = "Blind" \/
                   type_name = "HumiditySensor").
  { rewrite !elem_of_cons in Hin. rewrite elem_of_nil in Hin. tauto. }
  rewrite (create_device_resolver _ _ Hclass Hid Ht _ Htype).
  unfold _create_device.
  rewrite (subscript_Some _ _ _ Hplace), (subscript_Some _ _ _ Hfriendly),
    (subscript_Some _ _ _ Hprops).
  unfold bind at 1 2.
  destruct Hcases as [-> | [-> | ->]]; simpl eq_str; cbv iota; unfold bind at 1;
    rewrite ?(_get_prop_optional_not_iterable _ _ _ Hv), ?(_get_prop_not_iterable _ _ Hv);
    reflexivity.
Qed.

Lemma next_named_not_a_dict (l1 : list dict) (p : value) (rest : list value) key :
  Forall (fun e => ~ named key e) l1 -> not_a_dict p ->
  next_named ((VDict <$> l1) ++ p :: rest) key = Raise (AttributeError "get").
Proof.
  intros H1 Hp. rewrite next_named_app by (apply passed_over_dicts; exact H1).
  destruct p; try reflexivity. destruct (Hp d eq_refl).
Qed.

(** X12: an item that is no dictionary, met before any entry named [key],
    stops both lookups with [AttributeError], whatever follows it, an entry
    of that name included; met after the first such entry it is never
    reached by the optional lookup (C6). *)
Theorem item_without_get_raises_AttributeError
    (l1 : list dict) (p : value) (rest : list value) (key : string) (dflt : value) :
  Forall (fun e => ~ named key e) l1 -> not_a_dict p ->
  let properties := VList ((VDict <$> l1) ++ p :: rest) in
  _get_prop_optional properties key dflt = Raise (AttributeError "get")
  /\ _get_prop properties key = Raise (AttributeError "get").
Proof.
  intros H1 Hp properties.
  assert (Hopt : forall d, _get_prop_optional properties key d =
                           Raise (AttributeError "get")).
  { intros d. unfold _get_prop_optional, properties, py_iter. unfold bind at 1.
    rewrite (next_named_not_a_dict _ _ _ _ H1 Hp). reflexivity. }
  split; [apply Hopt|]. unfold _get_prop. rewrite Hopt. reflexivity.
Qed.

(** X13: the model name is looked at for a Heater only, after the first
    lookup in its properties: a Heater whose [modelName] is neither null nor
    a string raises [AttributeError], whatever its properties hold. *)
Theorem model_name_of_wrong_type_raises_AttributeError
    (payload : dict) (ident place friendly model : value) (l : list dict) :
  payload !! "class" = Some (VStr "Device") ->
  payload !! "id" = Some ident ->
  truthy ident = true ->
  payload !! "typeName" = Some (VStr "Heater") ->
  payload !! "placeIdentifier" = Some place ->
  payload !! "friendlyName" = Some friendly ->
  payload !! "properties" = Some (props l) ->
  payload !! "modelName" = Some model ->
  model <> VNone -> (forall s, model <> VStr s) ->
  create_device payload = Raise (AttributeError "startswith").
Proof.
  intros Hclass Hid Ht Htype Hplace Hfriendly Hprops Hmodel Hnone Hstr.
  rewrite (create_device_heater payload ident friendly place l) by assumption.
  rewrite (get_Some _ _ _ Hmodel).
  destruct model; try reflexivity; [congruence | destruct (Hstr s eq_refl)].
Qed.

(** ** The error contract: the failures and their causes *)

Lemma not_missing (payload : dict) k : ~ missing payload k <-> truthy (get payload k) = true.
Proof. unfold missing. destruct (truthy (get payload k)); split; congruence. Qed.

Lemma truthy_get_Some (d : dict) k : truthy (get d k) = true -> d !! k = Some (get d k).
Proof. unfold get. destruct (d !! k); simpl; [reflexivity|discriminate]. Qed.

Lemma get_is_str (d : dict) k s : get d k = VStr s <-> d !! k = Some (VStr s).
Proof. unfold get. destruct (d !! k); simpl; split; congruence. Qed.

Lemma accepted_head payload :
  accepted payload ->
  payload !! "class" = Some (VStr "Device") /\
  payload !! "id" = Some (get payload "id") /\ truthy (get payload "id") = true.
Proof.
  intros [Hc Hi]. apply not_missing in Hi. split; [exact Hc|].
  split; [apply truthy_get_Some|]; exact Hi.
Qed.

Lemma accepted_dispatch payload :
  accepted payload ->
  create_device payload =
  let* type_name := subscript payload "typeName" in
  _create_device (get payload "id") type_name payload.
Proof.
  intros H. apply accepted_head in H as (Hc & Hi & Ht).
  apply (create_device_dispatch _ _ Hc Hi Ht).
Qed.

Lemma resolved_device payload type_name :
  resolved payload type_name ->
  create_device payload = _create_device (get payload "id") type_name payload.
Proof.
  intros (Ha & Htype & _). rewrite (accepted_dispatch _ Ha), (subscript_Some _ _ _ Htype).
  reflexivity.
Qed.

Lemma absent_properties_path payload type_name :
  resolved payload type_name -> reads_properties type_name ->
  payload !! "properties" = None ->
  create_device payload = Raise (KeyError "properties").
Proof.
  intros Hres Hreads Hprops. rewrite (resolved_device _ _ Hres).
  destruct Hres as (_ & _ & [place Hplace] & [friendly Hfriendly]).
  unfold _create_device.
  rewrite (subscript_Some _ _ _ Hplace), (subscript_Some _ _ _ Hfriendly),
    (subscript_None _ _ Hprops).
  destruct Hreads as [-> | [-> | ->]]; reflexivity.
Qed.

Lemma heater_fallback_path payload l :
  resolved payload (VStr "Heater") ->
  payload !! "properties" = Some (props l) ->
  model_matches (get payload "modelName") = Ok false ->
  Forall (fun e => ~ radiator_entry e /\ ~ named "heatingTemperatureSetting" e) l ->
  create_device payload =
    Raise (UnsupportedDeviceError (UnrecognizedHeater (names l)) (get payload "id") payload).
Proof.
  intros (Ha & Htype & [place Hplace] & [friendly Hfriendly]) Hprops Hmodel Hnone.
  apply accepted_head in Ha as (Hc & Hi & Ht).
  rewrite (create_device_heater payload (get payload "id") friendly place l) by assumption.
  rewrite Hmodel. simpl. rewrite Forall_forall in Hnone.
  destruct (existsb (fun e => radiator_name (get e "name")) l) eqn:Hrad.
  { apply existsb_radiator, Exists_exists in Hrad as (e & Hin & He).
    destruct (Hnone e Hin). contradiction. }
  destruct (existsb (fun e => eq_str (get e "name") "heatingTemperatureSetting") l)
    eqn:Hknx; [|reflexivity].
  apply existsb_named, Exists_exists in Hknx as (e & Hin & He).
  destruct (Hnone e Hin). contradiction.
Qed.

Lemma setpoint_path payload l :
  resolved payload (VStr "Heater") ->
  payload !! "properties" = Some (props l) ->
  setpoint_consulted payload l ->
  exists friendly place,
    create_device payload =
      in_floor_valve_steps payload (get payload "id") friendly place l.
Proof.
  intros (Ha & Htype & [place Hplace] & [friendly Hfriendly]) Hprops Hcons.
  apply accepted_head in Ha as (Hc & Hi & Ht). exists friendly, place.
  destruct Hcons as [Hmodel | (Hmodel & Hrad & Hknx)].
  - rewrite (create_device_heater payload (get payload "id") friendly place l) by assumption.
    rewrite Hmodel. reflexivity.
  - apply (heater_setpoint_path payload (get payload "id") place friendly l); assumption.
Qed.

Lemma unknown_type_path payload type_name :
  resolved payload type_name ->
  (forall s, s ∈ ["Lamp"; "TwoChannelRockerSwitch"; "Heater"; "Blind"; "HumiditySensor"] ->
             type_name <> VStr s) ->
  create_device payload =
    Raise (UnsupportedDeviceError (Plain type_name) (get payload "id") payload).
Proof.
  intros Hres Hnot. rewrite (resolved_device _ _ Hres).
  destruct Hres as (_ & _ & [place Hplace] & [friendly Hfriendly]).
  rewrite (_create_device_head _ _ _ _ Hplace Hfriendly).
  assert (Hf : forall s,
             s ∈ ["Lamp"; "TwoChannelRockerSwitch"; "Heater"; "Blind"; "HumiditySensor"] ->
             eq_str type_name s = false).
  { intros s Hs. apply eq_str_false, Hnot, Hs. }
  rewrite !Hf by in_list. reflexivity.
Qed.

(** Every cause makes the device factory fail as it says. *)
Lemma device_failure_raises payload e :
  device_failure payload e -> create_device payload = Raise e.
Proof.
  intros H. destruct H as
    [Hc | Hc Hi | Hc Hi Hcls | Ha Htype | Ha [tn Htype] Hplace
    | Ha [tn Htype] [place Hplace] Hfriendly | tn Hres Hreads Hprops
    | l Hres Hprops Hno | l Hres Hprops Hno | l Hres Hprops Hcons Hno
    | l Hres Hprops Hmodel Hnone | tn Hres Hnot].
  - unfold create_device. unfold missing in Hc. rewrite Hc. reflexivity.
  - apply not_missing in Hc. unfold create_device. unfold missing in Hi.
    rewrite Hc, Hi. reflexivity.
  - apply not_missing in Hc, Hi. apply eq_str_false in Hcls.
    unfold create_device. rewrite Hc, Hi, Hcls. reflexivity.
  - rewrite (accepted_dispatch _ Ha), (subscript_None _ _ Htype). reflexivity.
  - rewrite (accepted_dispatch _ Ha), (subscript_Some _ _ _ Htype). unfold bind at 1.
    unfold _create_device. rewrite (subscript_None _ _ Hplace). reflexivity.
  - rewrite (accepted_dispatch _ Ha), (subscript_Some _ _ _ Htype). unfold bind at 1.
    unfold _create_device.
    rewrite (subscript_Some _ _ _ Hplace), (subscript_None _ _ Hfriendly). reflexivity.
  - apply (absent_properties_path _ tn); assumption.
  - destruct Hres as (Ha & Htype & [place Hplace] & [friendly Hfriendly]).
    apply accepted_head in Ha as (Hc & Hi & Ht).
    rewrite (create_device_blind payload (get payload "id") place friendly l) by assumption.
    rewrite (_get_prop_no_usable_value _ _ Hno). reflexivity.
  - destruct Hres as (Ha & Htype & [place Hplace] & [friendly Hfriendly]).
    apply accepted_head in Ha as (Hc & Hi & Ht).
    rewrite (create_device_humidity_sensor payload (get payload "id") place friendly l) by assumption.
    rewrite (_get_prop_no_usable_value _ _ Hno). reflexivity.
  - destruct (setpoint_path _ _ Hres Hprops Hcons) as (friendly & place & ->).
    unfold in_floor_valve_steps. rewrite (_get_prop_no_usable_value _ _ Hno).
    reflexivity.
  - apply heater_fallback_path; assumption.
  - apply unknown_type_path; assumption.
Qed.

Lemma _get_prop_Raise_inv l key e :
  _get_prop (props l) key = Raise e ->
  no_usable_value key l /\ e = ValueError (FailedToFind key (names l)).
Proof.
  rewrite _get_prop_props.
  destruct (lookup_optional l key VNone) eqn:Hl; try discriminate.
  intros [= <-]. split; [apply lookup_optional_None; exact Hl | reflexivity].
Qed.

Lemma in_floor_valve_steps_Raise_inv payload ident friendly place l e :
  in_floor_valve_steps payload ident friendly place l = Raise e ->
  no_usable_value "heatingTemperatureSetting" l /\
  e = ValueError (FailedToFind "heatingTemperatureSetting" (names l)).
Proof.
  unfold in_floor_valve_steps, bind.
  destruct (_get_prop (props l) "heatingTemperatureSetting") eqn:H; [discriminate|].
  intros [= <-]. apply _get_prop_Raise_inv. exact H.
Qed.

Lemma eq_str_five_false type_name :
  eq_str type_name "Lamp" = false ->
  eq_str type_name "TwoChannelRockerSwitch" = false ->
  eq_str type_name "Heater" = false ->
  eq_str type_name "Blind" = false ->
  eq_str type_name "HumiditySensor" = false ->
  forall s, s ∈ ["Lamp"; "TwoChannelRockerSwitch"; "Heater"; "Blind"; "HumiditySensor"] ->
            type_name <> VStr s.
Proof.
  intros H1 H2 H3 H4 H5 s Hs. rewrite !elem_of_cons, elem_of_nil in Hs.
  apply eq_str_false. destruct Hs as [-> | [-> | [-> | [-> | [-> | []]]]]]; assumption.
Qed.

(** On a payload of the expected types, every failure of the device factory
    has one of the causes. *)
Lemma create_device_failure payload e :
  well_typed payload -> create_device payload = Raise e -> device_failure payload e.
Proof.
  intros [Hmodel Htyped] H.
  destruct (truthy (get payload "class")) eqn:Hc; cycle 1.
  { rewrite (device_failure_raises _ _ (missing_class _ Hc)) in H.
    injection H as <-. apply missing_class. exact Hc. }
  apply not_missing in Hc.
  destruct (truthy (get payload "id")) eqn:Hi; cycle 1.
  { rewrite (device_failure_raises _ _ (missing_id _ Hc Hi)) in H.
    injection H as <-. apply missing_id; assumption. }
  apply not_missing in Hi.
  destruct (eq_str (get payload "class") "Device") eqn:Hcls; cycle 1.
  { apply eq_str_false in Hcls.
    rewrite (device_failure_raises _ _ (unsupported_class _ Hc Hi Hcls)) in H.
    injection H as <-. apply unsupported_class; assumption. }
  apply eq_str_true, get_is_str in Hcls.
  assert (Ha : accepted payload) by (split; assumption).
  assert (Hcase : forall e', device_failure payload e' -> device_failure payload e).
  { intros e' He'. rewrite (device_failure_raises _ _ He') in H.
    injection H as <-. exact He'. }
  destruct (payload !! "typeName") as [tn|] eqn:Htype;
    [|exact (Hcase _ (absent_type_name _ Ha Htype))].
  destruct (payload !! "placeIdentifier") as [place|] eqn:Hplace;
    [|apply (Hcase (KeyError "placeIdentifier")), absent_place_identifier; eauto].
  destruct (payload !! "friendlyName") as [friendly|] eqn:Hfriendly;
    [|apply (Hcase (KeyError "friendlyName")), absent_friendly_name; eauto].
  assert (Hres : resolved payload tn) by (repeat split; eauto; apply Ha).
  destruct (eq_str tn "Lamp") eqn:HL.
  { rewrite (resolved_device _ _ Hres), (_create_device_head _ _ _ _ Hplace Hfriendly), HL
      in H. discriminate. }
  destruct (eq_str tn "TwoChannelRockerSwitch") eqn:HS.
  { rewrite (resolved_device _ _ Hres), (_create_device_head _ _ _ _ Hplace Hfriendly),
      HL, HS in H. discriminate. }
  destruct (eq_str tn "Heater") eqn:HH; [|destruct (eq_str tn "Blind") eqn:HB;
                                          [|destruct (eq_str tn "HumiditySensor") eqn:HU]].
  - (* Heater *)
    apply eq_str_true in HH as ->.
    destruct (payload !! "properties") as [v|] eqn:Hprops;
      [|apply (Hcase (KeyError "properties")), (absent_properties _ _ Hres);
        [left; reflexivity | exact Hprops]].
    destruct (Htyped v eq_refl) as [l ->].
    apply accepted_head in Ha as (Hcl & Hid & Ht).
    rewrite (create_device_heater payload (get payload "id") friendly place l) in H by assumption.
    assert (Hm : exists b, model_matches (get payload "modelName") = Ok b).
    { destruct Hmodel as [-> | [s ->]]; simpl; eauto. }
    destruct Hm as [b Hm]. rewrite Hm in H. unfold bind at 1 in H.
    destruct b.
    + apply in_floor_valve_steps_Raise_inv in H as [Hno ->].
      apply setpoint_not_found; [assumption..|left; exact Hm|exact Hno].
    + destruct (existsb (fun e => radiator_name (get e "name")) l) eqn:Hrad;
        [discriminate|].
      assert (Hnorad : Forall (fun e => ~ radiator_entry e) l).
      { apply Forall_forall. intros x Hx Hr.
        assert (Hex : Exists radiator_entry l) by (apply Exists_exists; eauto).
        apply existsb_radiator in Hex. congruence. }
      destruct (existsb (fun e => eq_str (get e "name") "heatingTemperatureSetting") l)
        eqn:Hknx.
      * apply in_floor_valve_steps_Raise_inv in H as [Hno ->].
        apply setpoint_not_found; [assumption..| |exact Hno].
        right. split; [exact Hm|]. split; [exact Hnorad|].
        apply existsb_named. exact Hknx.
      * injection H as <-. apply unrecognized_heater; [assumption..|].
        apply Forall_forall. intros x Hx. split.
        -- rewrite Forall_forall in Hnorad. exact (Hnorad x Hx).
        -- intros Hn. assert (Hex : Exists (named "heatingTemperatureSetting") l)
             by (apply Exists_exists; eauto).
           apply existsb_named in Hex. congruence.
  - (* Blind *)
    apply eq_str_true in HB as ->.
    destruct (payload !! "properties") as [v|] eqn:Hprops;
      [|apply (Hcase (KeyError "properties")), (absent_properties _ _ Hres);
        [right; left; reflexivity | exact Hprops]].
    destruct (Htyped v eq_refl) as [l ->].
    apply accepted_head in Ha as (Hcl & Hid & Ht).
    rewrite (create_device_blind payload (get payload "id") place friendly l) in H by assumption.
    unfold bind in H.
    destruct (_get_prop (props l) "blindLevel") eqn:Hl; [discriminate|].
    injection H as <-. apply _get_prop_Raise_inv in Hl as [Hno ->].
    apply blind_level_not_found; assumption.
  - (* HumiditySensor *)
    apply eq_str_true in HU as ->.
    destruct (payload !! "properties") as [v|] eqn:Hprops;
      [|apply (Hcase (KeyError "properties")), (absent_properties _ _ Hres);
        [right; right; reflexivity | exact Hprops]].
    destruct (Htyped v eq_refl) as [l ->].
    apply accepted_head in Ha as (Hcl & Hid & Ht).
    rewrite (create_device_humidity_sensor payload (get payload "id") place friendly l) in H by assumption.
    unfold bind in H.
    destruct (_get_prop (props l) "humidityLevel") eqn:Hl; [discriminate|].
    injection H as <-. apply _get_prop_Raise_inv in Hl as [Hno ->].
    apply humidity_level_not_found; assumption.
  - apply (Hcase (UnsupportedDeviceError (Plain tn) (get payload "id") payload)).
    apply unsupported_type; [exact Hres|]. apply eq_str_five_false; assumption.
Qed.

Lemma create_room_failure payload e :
  create_room payload = Raise e <-> room_failure payload e.
Proof.
  split.
  - unfold create_room.
    destruct (truthy (get payload "class")) eqn:Hc; simpl;
      [|intros [= <-]; apply room_missing_class; exact Hc].
    apply not_missing in Hc.
    destruct (truthy (get payload "id")) eqn:Hi; simpl;
      [|intros [= <-]; apply room_missing_id; assumption].
    apply not_missing in Hi.
    destruct (eq_str (get payload "class") "Room") eqn:Hcls; simpl;
      [|intros [= <-]; apply room_unsupported_class; [assumption..|];
        apply eq_str_false; exact Hcls].
    apply eq_str_true, get_is_str in Hcls.
    unfold subscript. destruct (payload !! "placeName") eqn:Hp; simpl; [discriminate|].
    intros [= <-]. apply room_absent_place_name; assumption.
  - intros H. unfold create_room. destruct H as [Hc | Hc Hi | Hc Hi Hcls | Hc Hi Hp].
    + unfold missing in Hc. rewrite Hc. reflexivity.
    + apply not_missing in Hc. unfold missing in Hi. rewrite Hc, Hi. reflexivity.
    + apply not_missing in Hc, Hi. apply eq_str_false in Hcls.
      rewrite Hc, Hi, Hcls. reflexivity.
    + apply not_missing in Hi. rewrite (get_Some _ _ _ Hc), Hi, (subscript_None _ _ Hp).
      reflexivity.
Qed.

(** C4, amended: the room factory fails exactly in the four cases of
    [room_failure], and on a payload of the expected types (the model name
    null or a string, the properties a list of dictionaries) the device
    factory fails exactly in the cases of [device_failure], each with the
    exception written there: [ValueError] when the class, or else the id,
    is absent or empty, and, with another message carrying the names of all
    the entries, when a required property that the branch asks for has no
    entry or a first entry without a value; [NotImplementedError] when
    class and id are there and the class is not the expected one;
    [KeyError] on the first absent of [typeName], [placeIdentifier],
    [friendlyName], on [properties] for a type that reads them, and on
    [placeName] for a room; [UnsupportedDeviceError], carrying identifier
    and raw payload, when the type name is none of the five or the Heater
    has neither the model prefix nor any of the four names. These failures
    have four Python classes; the missing-field and the property-not-found
    failures share [ValueError] and differ in the message only, and
    [KeyError] is outside the four kinds of the spec. *)
Theorem classifier_failures (payload : dict) (e : exn) :
  (create_room payload = Raise e <-> room_failure payload e)
  /\ (device_failure payload e -> create_device payload = Raise e)
  /\ (well_typed payload -> create_device payload = Raise e -> device_failure payload e)
  /\ (device_failure payload e \/ room_failure payload e ->
      class_of e ∈ [ValueErrorClass; NotImplementedErrorClass;
                    UnsupportedDeviceErrorClass; KeyErrorClass]
      /\ (class_of e = ValueErrorClass <->
            kind_of e = Some MissingFieldError \/ kind_of e = Some PropertyNotFoundError)
      /\ (class_of e = KeyErrorClass <-> kind_of e = None)).
Proof.
  split; [apply create_room_failure|]. split; [apply device_failure_raises|].
  split; [apply create_device_failure|].
  intros [H | H]; destruct H; simpl;
    (split; [in_list|]); repeat split; intros; try discriminate;
    try reflexivity; intuition discriminate.
Qed.

(** C4 at a Blind payload with an empty property list: the cause of its
    [ValueError] is the missing [blindLevel]. *)
Lemma error_kinds_witness :
  device_failure blind_without_level (ValueError (FailedToFind "blindLevel" [])).
Proof.
  apply (proj1 (proj2 (proj2 (classifier_failures blind_without_level
                                (ValueError (FailedToFind "blindLevel" [])))))).
  - split; [left; by_evaluation|].
    intros v Hv. exists []. vm_compute in Hv. injection Hv as <-. reflexivity.
  - by_evaluation.
Defined.

(** ** The room helpers of the voice handlers *)

Lemma ES_TO_INTERNAL_range key room :
  ES_TO_INTERNAL !! key = Some room -> room ∈ internal_rooms.
Proof.
  assert (H : map_Forall (fun _ r => r ∈ internal_rooms) ES_TO_INTERNAL)
    by (apply (bool_decide_unpack _); vm_compute; exact I).
  apply H.
Qed.

Lemma internal_rooms_cases room :
  room ∈ internal_rooms ->
  room = "WoKo" \/ room = "Flur" \/ room = "Schlafen" \/ room = "Bad".
Proof.
  unfold internal_rooms. rewrite !elem_of_cons, elem_of_nil. tauto.
Qed.

Lemma normalize_room_key U spoken room :
  normalize_room U spoken = Some room ->
  exists key, ES_TO_INTERNAL !! key = Some room.
Proof.
  unfold normalize_room. destruct spoken as [[|a text]|]; try discriminate. eauto.
Qed.

(** X14: whatever was spoken, and whatever the Unicode routines do, a room
    that [normalize_room] returns is one of the four internal names, and
    each of them has a Spanish name in [INTERNAL_TO_ES], other than the
    internal one, and a list of its own in [FALLBACK_BLINDS]: [say_room_es]
    never says the internal name of a normalized room, and the fallback
    lookup never misses. *)
Theorem normalized_room_is_known
    (U : unicode_library) (spoken : option string) (room : string) :
  normalize_room U spoken = Some room ->
  room ∈ internal_rooms
  /\ INTERNAL_TO_ES !! room = Some (say_room_es room)
  /\ say_room_es room <> room
  /\ exists ids, (room, ids) ∈ FALLBACK_BLINDS /\ fallback_blinds room = ids.
Proof.
  intros H. apply normalize_room_key in H as [key H].
  apply ES_TO_INTERNAL_range in H.
  split; [exact H|].
  apply internal_rooms_cases in H as [-> | [-> | [-> | ->]]];
    (split; [vm_compute; reflexivity|]); (split; [vm_compute; discriminate|]);
    eexists; (split; [|vm_compute; reflexivity]); in_list.
Qed.

(** X15: [say_room_es] leaves a name it does not know as it is, and saying
    twice is saying once: no Spanish name is itself an internal name. *)
Theorem say_room_es_idempotent (internal : string) :
  (INTERNAL_TO_ES !! internal = None -> say_room_es internal = internal)
  /\ say_room_es (say_room_es internal) = say_room_es internal.
Proof.
  unfold say_room_es. split; [intros ->; reflexivity|].
  destruct (INTERNAL_TO_ES !! internal) as [spanish|] eqn:H; simpl; [|rewrite H; reflexivity].
  assert (Hall : map_Forall (fun _ s => INTERNAL_TO_ES !! s = None) INTERNAL_TO_ES)
    by (apply (bool_decide_unpack _); vm_compute; exact I).
  rewrite (Hall _ _ H). reflexivity.
Qed.

Lemma filter_nil_iff {A} (f : A -> bool) (xs : list A) :
  List.filter f xs = [] <-> Forall (fun x => f x = false) xs.
Proof.
  induction xs as [|x xs IH]; simpl; [split; constructor|].
  destruct (f x) eqn:Hx.
  - split; [discriminate|]. intros H. inversion H; congruence.
  - rewrite IH. split; [constructor; assumption|]. intros H. inversion H; assumption.
Qed.

Lemma room_blind_ids_fallback D room :
  no_blind_discovered D room -> room_blind_ids D room = VStr <$> fallback_blinds room.
Proof.
  unfold no_blind_discovered, room_blind_ids.
  destruct (find_room_by_name D room) as [devices|]; [|reflexivity].
  intros H. apply filter_nil_iff in H. rewrite H. reflexivity.
Qed.

Lemma room_blind_ids_discovered D room devices :
  find_room_by_name D room = Some devices ->
  Exists (fun dev => isinstance_Blind dev = true) devices ->
  room_blind_ids D room = device_identifier <$> List.filter isinstance_Blind devices
  /\ room_blind_ids D room <> [].
Proof.
  intros Hf Hex. unfold room_blind_ids. rewrite Hf.
  destruct (List.filter isinstance_Blind devices) as [|dev rest] eqn:Hfil.
  - apply filter_nil_iff in Hfil. apply Exists_exists in Hex as (dev & Hin & Hb).
    rewrite Forall_forall in Hfil. rewrite (Hfil dev Hin) in Hb. discriminate.
  - split; [reflexivity|discriminate].
Qed.

(** X16: when the room found by name holds at least one Blind,
    [room_blind_ids] returns the identifiers of its Blinds, in their order,
    and nothing of the fallback table; when the room is not found or holds
    no Blind, it returns the fallback list of that name, empty for a name
    the table does not have. *)
Theorem room_blind_ids_prefers_discovery (D : discovered) (room_internal : string) :
  (forall devices,
      find_room_by_name D room_internal = Some devices ->
      Exists (fun dev => isinstance_Blind dev = true) devices ->
      room_blind_ids D room_internal =
        device_identifier <$> List.filter isinstance_Blind devices)
  /\ (no_blind_discovered D room_internal ->
      room_blind_ids D room_internal = VStr <$> fallback_blinds room_internal)
  /\ (no_blind_discovered D room_internal ->
      (forall ids, (room_internal, ids) ∉ FALLBACK_BLINDS) ->
      room_blind_ids D room_internal = []).
Proof.
  split; [|split].
  - intros devices Hf Hex. apply (room_blind_ids_discovered _ _ _ Hf Hex).
  - apply room_blind_ids_fallback.
  - intros Hno Habs. rewrite (room_blind_ids_fallback _ _ Hno).
    unfold fallback_blinds.
    destruct (List.find _ FALLBACK_BLINDS) as [[name ids]|] eqn:Hfind; [|reflexivity].
    apply List.find_some in Hfind as [Hin Heq]. simpl in Heq.
    apply String.eqb_eq in Heq as ->.
    destruct (Habs ids). apply list_elem_of_In. exact Hin.
Qed.

(** X17: for a room that [normalize_room] returns, [room_blind_ids] is empty
    exactly when the room is ["Bad"] and no Blind was discovered for it: in
    the three other rooms the handler always finds blinds to move. *)
Theorem only_the_bathroom_can_lack_blinds
    (U : unicode_library) (D : discovered) (spoken : option string) (room : string) :
  normalize_room U spoken = Some room ->
  (room_blind_ids D room = [] <-> room = "Bad" /\ no_blind_discovered D room).
Proof.
  intros H. apply normalize_room_key in H as [key H]. apply ES_TO_INTERNAL_range in H.
  split.
  - intros Hempty.
    assert (Hno : no_blind_discovered D room).
    { unfold no_blind_discovered.
      destruct (find_room_by_name D room) as [devices|] eqn:Hf; [|exact I].
      apply filter_nil_iff.
      destruct (List.filter isinstance_Blind devices) as [|dev rest] eqn:Hfil;
        [reflexivity|].
      unfold room_blind_ids in Hempty. rewrite Hf, Hfil in Hempty. discriminate. }
    split; [|exact Hno].
    rewrite (room_blind_ids_fallback _ _ Hno) in Hempty.
    apply internal_rooms_cases in H as [-> | [-> | [-> | ->]]];
      try reflexivity; vm_compute in Hempty; discriminate.
  - intros [-> Hno]. rewrite (room_blind_ids_fallback _ _ Hno). reflexivity.
Qed.

(** *** All the blinds *)

Section AllBlinds.
Variable py_eq : value -> value -> bool.

Lemma append_new_not_nil ids x : append_new py_eq ids x <> [].
Proof.
  unfold append_new, py_in. destruct ids as [|y ids]; simpl; [discriminate|].
  destruct (py_eq x y || existsb (py_eq x) ids); discriminate.
Qed.

Lemma fallback_pass ids :
  foldl (fun ids rid_list =>
           foldl (fun ids i => append_new py_eq ids (VStr i)) ids rid_list)
        ids (snd <$> FALLBACK_BLINDS)
  = append_new py_eq
      (append_new py_eq
         (append_new py_eq (append_new py_eq ids (VStr "Blind_22")) (VStr "Blind_21"))
         (VStr "Blind_11"))
      (VStr "Blind_41").
Proof. reflexivity. Qed.

(** X18: [all_blind_ids] never returns an empty list, whatever was
    discovered: the fallback identifiers are always added, so the handler's
    answer for no blinds at all cannot be reached. *)
Theorem all_blind_ids_is_never_empty (D : discovered) : all_blind_ids py_eq D <> [].
Proof.
  unfold all_blind_ids. rewrite fallback_pass. apply append_new_not_nil.
Qed.

(** Python's [==] on two strings. *)
Hypothesis py_eq_str : forall s t, py_eq (VStr s) (VStr t) = String.eqb s t.

Lemma py_in_str x ids :
  is_str x -> Forall is_str ids -> py_in py_eq x ids = true <-> x ∈ ids.
Proof.
  intros [s ->] Hids. unfold py_in. rewrite existsb_exists. split.
  - intros (y & Hin & Hy). rewrite Forall_forall in Hids.
    apply list_elem_of_In in Hin. destruct (Hids y Hin) as [t ->].
    rewrite py_eq_str in Hy. apply String.eqb_eq in Hy as ->. exact Hin.
  - intros Hin. exists (VStr s). split; [apply list_elem_of_In; exact Hin|].
    rewrite py_eq_str. apply String.eqb_refl.
Qed.

Lemma append_new_spec ids x :
  each_once ids -> is_str x ->
  each_once (append_new py_eq ids x)
  /\ forall y, y ∈ append_new py_eq ids x <-> y ∈ ids \/ y = x.
Proof.
  intros [Hnd Hstr] Hx. unfold append_new.
  destruct (py_in py_eq x ids) eqn:Hin.
  - apply (py_in_str _ _ Hx Hstr) in Hin. split; [split; assumption|].
    intros y. split; [auto|]. intros [?| ->]; assumption.
  - assert (Hnot : x ∉ ids).
    { intros H. apply (py_in_str _ _ Hx Hstr) in H. congruence. }
    split; [split|].
    + apply NoDup_app. split; [assumption|]. split; [|apply NoDup_singleton].
      intros y Hy Hy'. apply list_elem_of_singleton in Hy' as ->. contradiction.
    + apply Forall_app. split; [assumption|]. constructor; [assumption|constructor].
    + intros y. rewrite elem_of_app, list_elem_of_singleton. reflexivity.
Qed.

Lemma collect_spec {A} (keep : A -> bool) (f : A -> value) (xs : list A) ids :
  (forall x, x ∈ xs -> keep x = true -> is_str (f x)) ->
  each_once ids ->
  each_once (foldl (fun ids x => if keep x then append_new py_eq ids (f x) else ids)
               ids xs)
  /\ forall y,
       y ∈ foldl (fun ids x => if keep x then append_new py_eq ids (f x) else ids) ids xs
       <-> y ∈ ids \/ exists x, x ∈ xs /\ keep x = true /\ f x = y.
Proof.
  revert ids. induction xs as [|x xs IH]; intros ids Hstr Hids; simpl.
  - split; [assumption|]. intros y. split; [auto|].
    intros [?|(x & Hx & _)]; [assumption|]. inversion Hx.
  - assert (Hxs : forall x', x' ∈ xs -> keep x' = true -> is_str (f x'))
      by (intros x' Hx'; apply Hstr; apply list_elem_of_further; exact Hx').
    destruct (keep x) eqn:Hk.
    + destruct (append_new_spec ids (f x) Hids (Hstr x (list_elem_of_here _ _) Hk))
        as [Hgood Hmem].
      destruct (IH _ Hxs Hgood) as [Hgood' Hmem']. split; [exact Hgood'|].
      intros y. rewrite Hmem', Hmem. split.
      * intros [[?| ->]|(x' & Hx' & Hk' & Hf)]; [auto| |].
        -- right. exists x. split; [apply list_elem_of_here|auto].
        -- right. exists x'. split; [apply list_elem_of_further; exact Hx'|auto].
      * intros [?|(x' & Hx' & Hk' & Hf)]; [auto|].
        apply elem_of_cons in Hx' as [-> | Hx']; [left; right; auto|].
        right. exists x'. auto.
    + destruct (IH _ Hxs Hids) as [Hgood' Hmem']. split; [exact Hgood'|].
      intros y. rewrite Hmem'. split.
      * intros [?|(x' & Hx' & Hk' & Hf)]; [auto|].
        right. exists x'. split; [apply list_elem_of_further; exact Hx'|auto].
      * intros [?|(x' & Hx' & Hk' & Hf)]; [auto|].
        apply elem_of_cons in Hx' as [-> | Hx']; [congruence|].
        right. exists x'. auto.
Qed.

Lemma collect_rooms_spec {A} (keep : A -> bool) (f : A -> value)
    (xss : list (list A)) ids :
  (forall xs x, xs ∈ xss -> x ∈ xs -> keep x = true -> is_str (f x)) ->
  each_once ids ->
  each_once
    (foldl (fun ids xs =>
              foldl (fun ids x => if keep x then append_new py_eq ids (f x) else ids)
                    ids xs)
           ids xss)
  /\ forall y,
       y ∈ foldl (fun ids xs =>
                    foldl (fun ids x => if keep x then append_new py_eq ids (f x) else ids)
                          ids xs)
                 ids xss
       <-> y ∈ ids \/ exists xs x, xs ∈ xss /\ x ∈ xs /\ keep x = true /\ f x = y.
Proof.
  revert ids. induction xss as [|xs xss IH]; intros ids Hstr Hids; simpl.
  - split; [assumption|]. intros y. split; [auto|].
    intros [?|(xs & x & Hxs & _)]; [assumption|]. inversion Hxs.
  - destruct (collect_spec keep f xs ids) as [Hgood Hmem];
      [intros x Hx; apply (Hstr xs); [apply list_elem_of_here|exact Hx] | exact Hids |].
    destruct (IH _ (fun xs' x Hxs' => Hstr xs' x (list_elem_of_further _ _ _ Hxs')) Hgood)
      as [Hgood' Hmem'].
    split; [exact Hgood'|]. intros y. rewrite Hmem', Hmem. split.
    + intros [[?|(x & Hx & Hk & Hf)]|(xs' & x & Hxs' & Hx & Hk & Hf)]; [auto| |].
      * right. exists xs, x. split; [apply list_elem_of_here|auto].
      * right. exists xs', x. split; [apply list_elem_of_further; exact Hxs'|auto].
    + intros [?|(xs' & x & Hxs' & Hx & Hk & Hf)]; [auto|].
      apply elem_of_cons in Hxs' as [-> | Hxs'].
      * left. right. exists x. auto.
      * right. exists xs', x. auto.
Qed.

(** X19: when the identifiers of the discovered Blinds are strings,
    [all_blind_ids] returns each identifier once: the list has no
    repetition, and it holds exactly the identifiers of the Blinds of the
    discovered rooms and the four identifiers of the fallback table. *)
Theorem all_blind_ids_has_each_blind_once (D : discovered) :
  (forall room dev, room ∈ get_rooms D -> dev ∈ room -> isinstance_Blind dev = true ->
                    is_str (device_identifier dev)) ->
  NoDup (all_blind_ids py_eq D)
  /\ forall y,
       y ∈ all_blind_ids py_eq D <->
       (exists room dev, room ∈ get_rooms D /\ dev ∈ room /\
                         isinstance_Blind dev = true /\ device_identifier dev = y)
       \/ y ∈ VStr <$> ["Blind_22"; "Blind_21"; "Blind_11"; "Blind_41"].
Proof.
  intros Hstr. unfold all_blind_ids.
  destruct (collect_rooms_spec isinstance_Blind device_identifier (get_rooms D) [])
    as [Hgood Hmem]; [exact Hstr | split; constructor |].
  set (ids := foldl _ [] (get_rooms D)) in *.
  change (foldl (fun ids0 rid_list =>
                   foldl (fun ids1 i => append_new py_eq ids1 (VStr i)) ids0 rid_list)
                ids (snd <$> FALLBACK_BLINDS))
    with (foldl (fun ids0 rid_list =>
                   foldl (fun ids1 i => if (fun _ : string => true) i
                                        then append_new py_eq ids1 (VStr i) else ids1)
                         ids0 rid_list)
                ids (snd <$> FALLBACK_BLINDS)).
  destruct (collect_rooms_spec (fun _ : string => true) VStr (snd <$> FALLBACK_BLINDS) ids)
    as [[Hnd _] Hmem']; [intros; eexists; reflexivity | exact Hgood |].
  split; [exact Hnd|]. intros y. rewrite Hmem', Hmem. split.
  - intros [[Hnil | Hdisc] | (xs & i & Hxs & Hi & _ & <-)].
    + inversion Hnil.
    + left. exact Hdisc.
    + right. apply list_elem_of_fmap. exists i. split; [reflexivity|].
      simpl in Hxs. rewrite !elem_of_cons, elem_of_nil in Hxs.
      destruct Hxs as [-> | [-> | [-> | [-> | []]]]];
        rewrite ?elem_of_cons, ?elem_of_nil in Hi; rewrite !elem_of_cons; tauto.
  - intros [Hdisc | Hfb]; [left; right; exact Hdisc|].
    right. apply list_elem_of_fmap in Hfb as (i & -> & Hi).
    rewrite !elem_of_cons, elem_of_nil in Hi.
    destruct Hi as [-> | [-> | [-> | [-> | []]]]].
    + exists ["Blind_22"; "Blind_21"], "Blind_22". repeat split; simpl; in_list.
    + exists ["Blind_22"; "Blind_21"], "Blind_21". repeat split; simpl; in_list.
    + exists ["Blind_11"], "Blind_11". repeat split; simpl; in_list.
    + exists ["Blind_41"], "Blind_41". repeat split; simpl; in_list.
Qed.
End AllBlinds.

(** *** The key of a spoken room *)

Lemma replace_enye_pair a b after :
  replace_enye (String a (String b after)) =
  if (Ascii.nat_of_ascii a =? 195)%nat && (Ascii.nat_of_ascii b =? 177)%nat
  then String "n"%char (replace_enye after)
  else String a (replace_enye (String b after)).
Proof. reflexivity. Qed.

Lemma contains_enye_pair a b rest :
  contains_enye (String a (String b rest)) =
  ((Ascii.nat_of_ascii a =? 195)%nat && (Ascii.nat_of_ascii b =? 177)%nat)
  || contains_enye (String b rest).
Proof. reflexivity. Qed.

Lemma replace_enye_clean_upto (n : nat) (t : string) :
  String.length t <= n ->
  contains_enye (replace_enye t) = false
  /\ forall c r, replace_enye t = String c r ->
                 c = "n"%char \/ exists r', t = String c r'.
Proof.
  revert t. induction n as [|n IH]; intros t Hlen.
  - destruct t; [|simpl in Hlen; lia]. simpl. split; [reflexivity|discriminate].
  - destruct t as [|a rest]; [simpl; split; [reflexivity|discriminate]|].
    destruct rest as [|b after].
    { simpl. split; [reflexivity|]. intros c r [= <- <-]. right. eauto. }
    simpl in Hlen. rewrite replace_enye_pair.
    destruct ((Ascii.nat_of_ascii a =? 195)%nat && (Ascii.nat_of_ascii b =? 177)%nat)
      eqn:Hpair.
    + destruct (IH after ltac:(lia)) as [Hclean _].
      split; [|intros c r [= <- <-]; left; reflexivity].
      destruct (replace_enye after) as [|c r]; [reflexivity|].
      rewrite contains_enye_pair, Hclean. reflexivity.
    + destruct (IH (String b after) ltac:(simpl; lia)) as [Hclean Hfirst].
      split; [|intros c r [= <- <-]; right; eauto].
      destruct (replace_enye (String b after)) as [|c r] eqn:Hr; [reflexivity|].
      rewrite contains_enye_pair, Hclean, orb_false_r.
      destruct (Hfirst c r eq_refl) as [-> | [r' [= <- <-]]].
      * apply andb_false_r.
      * exact Hpair.
Qed.

Lemma replace_enye_clean t : contains_enye (replace_enye t) = false.
Proof. apply (replace_enye_clean_upto (String.length t)). lia. Qed.

(** X20: the key that [_strip_articles_and_accents] returns never holds the
    letter "ñ", whatever was spoken and whatever the Unicode routines do:
    it is never ["baño"], so this entry of [ES_TO_INTERNAL] is never the
    one [normalize_room] finds. *)
Theorem key_never_holds_enye (U : unicode_library) (text : string) :
  contains_enye (_strip_articles_and_accents U text) = false
  /\ _strip_articles_and_accents U text <> "baño".
Proof.
  assert (H : contains_enye (_strip_articles_and_accents U text) = false)
    by apply replace_enye_clean.
  split; [exact H|]. intros Heq. rewrite Heq in H. vm_compute in H. discriminate.
Qed.

Lemma drop_article_cut art rest :
  art ∈ ["la "; "el "; "los "; "las "] ->
  drop_article ["la "; "el "; "los "; "las "] (art ++ rest)%string = rest.
Proof.
  assert (Hnil : forall s, String.prefix "" s = true) by (intros [|? ?]; reflexivity).
  rewrite !elem_of_cons, elem_of_nil.
  intros [-> | [-> | [-> | [-> | []]]]]; unfold String.append; simpl;
    rewrite Hnil; reflexivity.
Qed.

(** X21: once the text is trimmed and in lower case, exactly one leading
    article is cut: of a text that is "la ", "el ", "los " or "las "
    followed by [rest], only [rest] goes on to the removal of the accents,
    even when [rest] starts with an article itself; a text that starts with
    none of the four goes on whole. *)
Theorem leading_article_is_cut_once (U : unicode_library) (text : string) :
  (forall art rest,
      art ∈ ["la "; "el "; "los "; "las "] ->
      py_lower U (py_strip U text) = (art ++ rest)%string ->
      _strip_articles_and_accents U text = replace_enye (nfd_without_marks U rest))
  /\ (Forall (fun art => String.prefix art (py_lower U (py_strip U text)) = false)
        ["la "; "el "; "los "; "las "] ->
      _strip_articles_and_accents U text =
        replace_enye (nfd_without_marks U (py_lower U (py_strip U text)))).
Proof.
  unfold _strip_articles_and_accents. split.
  - intros art rest Hart ->. rewrite (drop_article_cut _ _ Hart). reflexivity.
  - intros H. rewrite !Forall_cons in H. destruct H as (H1 & H2 & H3 & H4 & _).
    cbn [drop_article]. rewrite H1, H2, H3, H4. reflexivity.
Qed.

(** ** The further properties at concrete inputs *)

(** X1 at a Lamp whose [properties] and [modelName] are numbers. *)
Lemma lamp_witness :
  create_device lamp_payload =
    Ok (Lamp (VStr "lamp-1") (VStr "Lampe") (VStr "room-1") VNone).
Proof.
  apply (proj1 (lamp_and_switch_need_no_properties
                  lamp_payload (VStr "lamp-1") (VStr "room-1") (VStr "Lampe")
                  ltac:(by_evaluation) ltac:(by_evaluation) ltac:(by_evaluation)
                  ltac:(by_evaluation) ltac:(by_evaluation))).
  by_evaluation.
Defined.

(** X2 at the type name ["lamp"], in lower case. *)
Lemma unknown_type_name_witness :
  create_device lower_case_lamp_payload =
    Raise (UnsupportedDeviceError (Plain (VStr "lamp")) (VStr "lamp-1")
             lower_case_lamp_payload).
Proof.
  apply (unknown_type_name_is_unsupported
           lower_case_lamp_payload (VStr "lamp-1") (VStr "room-1") (VStr "Lampe")
           ltac:(by_evaluation) ltac:(by_evaluation) ltac:(by_evaluation)
           ltac:(by_evaluation) ltac:(by_evaluation)
           (VStr "lamp") ltac:(by_evaluation)).
  intros s Hs. rewrite !elem_of_cons, elem_of_nil in Hs.
  destruct Hs as [-> | [-> | [-> | [-> | [-> | []]]]]]; discriminate.
Defined.

(** X3 at a Blind with two entries named [blindLevel]. *)
Lemma blind_witness :
  create_device blind_payload =
    Ok (Blind (VStr "blind-1") (VStr "Rollo") (VStr "room-1") VNone (VInt 40)).
Proof.
  apply (proj1 (blind_reads_first_blind_level
                  blind_payload (VStr "blind-1") (VStr "room-1") (VStr "Rollo")
                  [unrelated_entry; blind_entry; second_blind_entry]
                  ltac:(by_evaluation) ltac:(by_evaluation) ltac:(by_evaluation)
                  ltac:(by_evaluation) ltac:(by_evaluation) ltac:(by_evaluation)
                  ltac:(by_evaluation))
           blind_entry (VInt 40)).
  - exists [unrelated_entry], [second_blind_entry].
    split; [reflexivity|]. split; [|by_evaluation].
    constructor; [discriminate|constructor].
  - by_evaluation.
  - discriminate.
Defined.

(** X4 at a HumiditySensor with a temperature and a humidity. *)
Lemma humidity_sensor_witness :
  create_device humidity_payload =
    Ok (HumiditySensor (VStr "sensor-1") (VStr "Sensor") (VStr "room-1") VNone
          (VInt 21) (VInt 55)).
Proof.
  apply (proj1 (humidity_sensor_reads_first_humidity_level
                  humidity_payload (VStr "sensor-1") (VStr "room-1") (VStr "Sensor")
                  [temperature_entry; humidity_entry]
                  ltac:(by_evaluation) ltac:(by_evaluation) ltac:(by_evaluation)
                  ltac:(by_evaluation) ltac:(by_evaluation) ltac:(by_evaluation)
                  ltac:(by_evaluation))
           humidity_entry (VInt 55)).
  - exists [temperature_entry], [].
    split; [reflexivity|]. split; [|by_evaluation].
    constructor; [discriminate|constructor].
  - by_evaluation.
  - discriminate.
Defined.

(** X5 at a Heater whose only property is the setpoint. *)
Lemma setpoint_alone_witness :
  create_device setpoint_heater =
    Ok (InFloorValve (VStr "heater-4") (VStr "Heizung") (VStr "room-1") VNone
          VNone (VInt 21) (VStr "UNKNOWN")).
Proof.
  apply (proj1 (setpoint_alone_gives_in_floor_valve
                  setpoint_heater (VStr "heater-4") (VStr "room-1") (VStr "Heizung")
                  [setpoint_entry]
                  ltac:(by_evaluation) ltac:(by_evaluation) ltac:(by_evaluation)
                  ltac:(by_evaluation) ltac:(by_evaluation) ltac:(by_evaluation)
                  setpoint_entry (VInt 21)
                  ltac:(by_evaluation) ltac:(by_evaluation)
                  ltac:(constructor; [intros [H | [H | H]]; discriminate | constructor])
                  ltac:(exists [], []; split; [reflexivity|];
                        split; [constructor | by_evaluation])
                  ltac:(by_evaluation) ltac:(discriminate))).
Defined.

(** X6 at a Heater whose setpoint entry has no value. *)
Lemma setpoint_without_value_witness :
  create_device valueless_setpoint_heater =
    Raise (ValueError (FailedToFind "heatingTemperatureSetting"
                         [VStr "heatingTemperatureSetting"])).
Proof.
  apply (setpoint_without_value_is_not_found
           valueless_setpoint_heater (VStr "heater-4") (VStr "room-1") (VStr "Heizung")
           [setpoint_without_value]
           ltac:(by_evaluation) ltac:(by_evaluation) ltac:(by_evaluation)
           ltac:(by_evaluation) ltac:(by_evaluation) ltac:(by_evaluation)
           setpoint_without_value
           ltac:(by_evaluation) ltac:(by_evaluation)
           ltac:(constructor; [intros [H | [H | H]]; discriminate | constructor])
           ltac:(exists [], []; split; [reflexivity|];
                 split; [constructor | by_evaluation])
           ltac:(left; by_evaluation)).
Defined.

(** X7 at a payload without class: the class is reported, not the type
    name that is absent too. *)
Lemma device_factory_head_witness :
  create_device payload_without_class =
    Raise (ValueError (Literal "Payload missing class")).
Proof.
  apply (proj1 (device_factory_checks_class_then_id payload_without_class)).
  by_evaluation.
Defined.

(** X8 at a Room payload given to the device factory. *)
Lemma factories_are_exclusive_witness :
  create_device room_payload =
    Raise (NotImplementedError (UnsupportedDeviceClass (VStr "Room"))).
Proof.
  apply (proj1 (factories_are_exclusive room_payload)
           (mkRoom (VStr "room-1") (VStr "Flur"))).
  by_evaluation.
Defined.

(** X9 at the Blind payload. *)
Lemma created_entities_witness :
  truthy (VStr "blind-1") = true /\ Some (VInt 40) <> Some VNone.
Proof.
  apply (proj1 (created_entities_are_identified blind_payload)
           (Blind (VStr "blind-1") (VStr "Rollo") (VStr "room-1") VNone (VInt 40))).
  by_evaluation.
Defined.

(** X10 at a heating summary without the optional fields. *)
Lemma heating_factory_witness :
  create_heating heating_payload =
    Ok (mkHeating (VStr "heating-1") (VStr "Flur") VNone (VInt 21) VNone).
Proof.
  apply (proj1 (heating_factory heating_payload)
           (VStr "heating-1") (VStr "Flur") (VInt 21)); by_evaluation.
Defined.

(** X11 at a Blind whose [properties] is null. *)
Lemma properties_not_iterable_witness :
  create_device blind_with_null_properties = Raise TypeError.
Proof.
  apply (properties_not_iterable_raise_TypeError
           blind_with_null_properties (VStr "blind-1") (VStr "room-1") (VStr "Rollo")
           VNone "Blind"
           ltac:(by_evaluation) ltac:(by_evaluation) ltac:(by_evaluation)
           ltac:(by_evaluation) ltac:(in_list) ltac:(by_evaluation)
           ltac:(by_evaluation) ltac:(by_evaluation) ltac:(left; reflexivity)).
Defined.

(** X12 at a list whose second item is a number, before the [blindLevel]
    entry. *)
Lemma item_without_get_witness :
  _get_prop (VList [VDict unrelated_entry; VInt 7; VDict blind_entry]) "blindLevel"
  = Raise (AttributeError "get").
Proof.
  apply (proj2 (item_without_get_raises_AttributeError
                  [unrelated_entry] (VInt 7) [VDict blind_entry] "blindLevel" VNone
                  ltac:(constructor; [discriminate|constructor])
                  ltac:(intros d; discriminate))).
Defined.

(** X13 at a Heater whose model name is a number. *)
Lemma model_name_of_wrong_type_witness :
  create_device numeric_model_heater = Raise (AttributeError "startswith").
Proof.
  apply (model_name_of_wrong_type_raises_AttributeError
           numeric_model_heater (VStr "heater-4") (VStr "room-1") (VStr "Heizung")
           (VInt 5) [setpoint_entry]
           ltac:(by_evaluation) ltac:(by_evaluation) ltac:(by_evaluation)
           ltac:(by_evaluation) ltac:(by_evaluation) ltac:(by_evaluation)
           ltac:(by_evaluation) ltac:(by_evaluation)
           ltac:(discriminate) ltac:(intros s; discriminate)).
Defined.

(** X14 at "la sala". *)
Lemma normalized_room_witness :
  "WoKo" ∈ internal_rooms /\
  INTERNAL_TO_ES !! "WoKo" = Some (say_room_es "WoKo") /\
  say_room_es "WoKo" <> "WoKo" /\
  exists ids, ("WoKo", ids) ∈ FALLBACK_BLINDS /\ fallback_blinds "WoKo" = ids.
Proof.
  apply (normalized_room_is_known plain_text_library (Some "la sala") "WoKo").
  by_evaluation.
Defined.

(** X15 at a name the table does not have. *)
Lemma say_room_es_witness : say_room_es "Keller" = "Keller".
Proof.
  apply (proj1 (say_room_es_idempotent "Keller")). by_evaluation.
Defined.

(** X16 at a living room with two Blinds and a Lamp. *)
Lemma room_blind_ids_witness :
  room_blind_ids one_room_discovered "WoKo" = [VStr "Blind_7"; VStr "Blind_22"].
Proof.
  apply (proj1 (room_blind_ids_prefers_discovery one_room_discovered "WoKo")
           living_room_devices ltac:(by_evaluation)).
  apply Exists_cons_hd. reflexivity.
Defined.

(** X17 at "baño", with no room discovered under that name. *)
Lemma bathroom_witness :
  room_blind_ids one_room_discovered "Bad" = [] <->
  "Bad" = "Bad" /\ no_blind_discovered one_room_discovered "Bad".
Proof.
  apply (only_the_bathroom_can_lack_blinds plain_text_library one_room_discovered
           (Some "bano") "Bad").
  by_evaluation.
Defined.

(** X19 at the same living room: ["Blind_22"], discovered and in the
    fallback table, is in the list once. *)
Lemma all_blind_ids_witness :
  NoDup (all_blind_ids str_eq one_room_discovered) /\
  forall y,
    y ∈ all_blind_ids str_eq one_room_discovered <->
    (exists room dev, room ∈ get_rooms one_room_discovered /\ dev ∈ room /\
                      isinstance_Blind dev = true /\ device_identifier dev = y)
    \/ y ∈ VStr <$> ["Blind_22"; "Blind_21"; "Blind_11"; "Blind_41"].
Proof.
  apply (all_blind_ids_has_each_blind_once str_eq (fun s t => eq_refl)
           one_room_discovered).
  intros room dev Hroom Hdev Hblind.
  apply list_elem_of_singleton in Hroom as ->.
  unfold living_room_devices in Hdev. rewrite !elem_of_cons, elem_of_nil in Hdev.
  destruct Hdev as [-> | [-> | [-> | []]]]; try discriminate; eexists; reflexivity.
Defined.

(** X21 at "la la sala": one article is cut. *)
Lemma leading_article_witness :
  _strip_articles_and_accents plain_text_library "la la sala" = "la sala".
Proof.
  apply (proj1 (leading_article_is_cut_once plain_text_library "la la sala")
           "la " "la sala" ltac:(in_list) ltac:(reflexivity)).
Defined.
